(** * azureml-examples: notebooks, CLI walkthrough and CI workflows

    The repository is glue code: three notebooks that call third-party
    libraries and cloud SDKs in sequence, and two CI workflow files.  The
    notebooks are embedded as programs in a small monad of external calls
    ([Prog]): every library or SDK call is an event answered by an oracle,
    which either returns a Python value or raises.  The workflow files are
    embedded as records, and their [run:] lines are executed by a small
    shell over a map from paths to file contents. *)

From Stdlib Require Import ZArith List String Ascii Bool Lia Permutation.
From stdpp Require Import base option list strings gmap fin_maps.
Import ListNotations.
#[local] Set Warnings "-register-all,-notation-incompatible-prefix".
Local Open Scope string_scope.
Local Open Scope Z_scope.

(** ** Python values *)

(** What the notebooks pass to and receive from libraries.  A float is kept
    as the decimal literal of the source ([0.2] is [VFloat 2 (-1)]); a
    library-owned object (workspace, model, web service, dask dataframe,
    fitted booster, ...) is an opaque reference [VObj]. *)
Inductive value : Type :=
| VNone
| VBool (b : bool)
| VInt (n : Z)
| VFloat (digits : Z) (exp10 : Z)
| VStr (s : string)
| VList (items : list value)
| VTuple (items : list value)
| VDict (items : list (string * value))
| VFrame (columns : list string) (rows : list (Z * list value))
| VSeries (cells : list (Z * value))
| VArray (items : list value)
| VObj (id : nat).

Inductive exn : Type :=
| PyExn (cls : string) (msg : string).

Inductive result (A : Type) : Type :=
| Returned (a : A)
| Raised (e : exn).
Arguments Returned {A} a.
Arguments Raised {A} e.

(** ** External calls *)

Definition kwargs := list (string * value).

Inductive call : Type :=
| Import (module : string)
| Call (callee : string) (args : list value) (kw : kwargs)
| Method (recv : value) (name : string) (args : list value) (kw : kwargs)
| GetAttr (recv : value) (attr : string)
| SetAttr (recv : value) (attr : string) (v : value)
| BinOp (op : string) (lhs rhs : value)
| Shell (cmdline : string)
| WriteFile (path : string) (body : list string)
| Magic (line : string)
| Display (v : value).

(** A short label of a call, with the values erased. *)
Definition label (c : call) : string :=
  match c with
  | Import m => "import " ++ m
  | Call f _ _ => f
  | Method _ m _ _ => "." ++ m
  | GetAttr _ a => "get ." ++ a
  | SetAttr _ a _ => "set ." ++ a
  | BinOp op _ _ => "op " ++ op
  | Shell c => "!" ++ c
  | WriteFile p _ => "%%writefile " ++ p
  | Magic l => "%" ++ l
  | Display _ => "display"
  end.

(** ** The monad of notebook code *)

(** Code over external calls.  [Do c k] issues the call [c] and goes on with
    [k] on what it returned; when the call raises, the exception leaves the
    code around it, up to the nearest handler.  [Raise e] raises [e] on the
    spot: Python does so on an operation of the language that fails
    (unpacking, iterating or formatting a value that does not allow it), and
    so does a [raise] statement.  [Try body handler k] is
    [try: body  except: handler], followed by [k].  The three notebooks
    have no [try] and no [raise] statement. *)
Inductive Prog (R : Type) : Type :=
| Ret (r : R)
| Raise (e : exn)
| Do (c : call) (k : value -> Prog R)
| Try (body : Prog value) (handler : exn -> Prog value) (k : value -> Prog R).
Arguments Ret {R} r.
Arguments Raise {R} e.
Arguments Do {R} c k.
Arguments Try {R} body handler k.

Fixpoint bind {A B : Type} (p : Prog A) (f : A -> Prog B) : Prog B :=
  match p with
  | Ret a => f a
  | Raise e => Raise e
  | Do c k => Do c (fun v => bind (k v) f)
  | Try body handler k => Try body handler (fun v => bind (k v) f)
  end.

Declare Scope prog_scope.
Delimit Scope prog_scope with prog.
Notation "x <- p ;; q" := (bind p (fun x => q))
  (at level 100, p at next level, right associativity) : prog_scope.
Notation "' pat <- p ;; q" := (bind p (fun x => match x with pat => q end))
  (at level 100, pat pattern, p at next level, right associativity) : prog_scope.
Notation "p ;; q" := (bind p (fun _ => q))
  (at level 100, right associativity) : prog_scope.
Local Open Scope prog_scope.

Definition do (c : call) : Prog value := Do c Ret.

Definition import_ (m : string) : Prog value := do (Import m).
Definition call_ (f : string) (args : list value) (kw : kwargs) : Prog value :=
  do (Call f args kw).
Definition method (recv : value) (m : string) (args : list value) (kw : kwargs)
  : Prog value := do (Method recv m args kw).
Definition getattr (recv : value) (a : string) : Prog value := do (GetAttr recv a).
Definition setattr (recv : value) (a : string) (v : value) : Prog value :=
  do (SetAttr recv a v).
Definition binop (op : string) (a b : value) : Prog value := do (BinOp op a b).
Definition shell (c : string) : Prog value := do (Shell c).
Definition display (v : value) : Prog value := do (Display v).
Definition magic (l : string) : Prog value := do (Magic l).
Definition print (args : list value) : Prog value := call_ "print" args [].

(** The double-quote character, for command lines that contain one. *)
Definition dquote : string := String (ascii_of_nat 34) EmptyString.

(** [a, b, c, d = v]: Python unpacks a sequence of exactly that length. *)
Definition unpack4 (v : value) : Prog (value * value * value * value) :=
  match v with
  | VList [a; b; c; d] | VTuple [a; b; c; d] => Ret (a, b, c, d)
  | VList _ | VTuple _ => Raise (PyExn "ValueError" "wrong number of values to unpack")
  | _ => Raise (PyExn "TypeError" "cannot unpack non-iterable object")
  end.

(** A hole [{v}] of an f-string: a [str] formats as itself; for any other
    object Python calls [format(v)], which must return a [str]. *)
Definition format_value (v : value) : Prog string :=
  match v with
  | VStr s => Ret s
  | _ => r <- call_ "format" [v] [] ;;
         match r with
         | VStr s => Ret s
         | _ => Raise (PyExn "TypeError" "__format__ must return a str")
         end
  end.

(** [for x in v]: the notebooks iterate only over what a library documents
    as a list; an opaque object is not iterated. *)
Definition iterate (v : value) : Prog (list value) :=
  match v with
  | VList l | VTuple l | VArray l => Ret l
  | _ => Raise (PyExn "TypeError" "object is not iterable")
  end.

(** [l[-n:]] on a Python list. *)
Definition last_n {A : Type} (n : nat) (l : list A) : list A :=
  skipn (length l - n) l.

Fixpoint for_each {A B : Type} (f : A -> Prog B) (l : list A) : Prog (list B) :=
  match l with
  | [] => Ret []
  | a :: l' => b <- f a ;; bs <- for_each f l' ;; Ret (b :: bs)
  end.

(** ** Running a program against an oracle *)

Definition outcome := result value.
Definition trace := list (call * outcome).

(** The oracle answers every call, possibly changing the outside world [W]. *)
Definition oracle (W : Type) := call -> W -> outcome * W.

Fixpoint run {W R : Type} (h : oracle W) (p : Prog R) (w : W)
  : result R * trace * W :=
  match p with
  | Ret r => (Returned r, [], w)
  | Raise e => (Raised e, [], w)
  | Do c k =>
      let '(o, w') := h c w in
      match o with
      | Returned v =>
          let '(r, tr, w'') := run h (k v) w' in (r, (c, o) :: tr, w'')
      | Raised e => (Raised e, [(c, o)], w')
      end
  | Try body handler k =>
      let '(r, tr, w') := run h body w in
      match r with
      | Returned v =>
          let '(r2, tr2, w2) := run h (k v) w' in (r2, (tr ++ tr2)%list, w2)
      | Raised e =>
          let '(r1, tr1, w1) := run h (handler e) w' in
          match r1 with
          | Returned v =>
              let '(r2, tr2, w2) := run h (k v) w1 in
              (r2, (tr ++ tr1 ++ tr2)%list, w2)
          | Raised e1 => (Raised e1, (tr ++ tr1)%list, w1)
          end
      end
  end.

Definition outcome_of {W R : Type} (x : result R * trace * W) : result R := fst (fst x).
Definition trace_of {W R : Type} (x : result R * trace * W) : trace := snd (fst x).
Definition world_of {W R : Type} (x : result R * trace * W) : W := snd x.

Definition calls (tr : trace) : list call := map fst tr.
Definition labels (tr : trace) : list string := map (fun x => label (fst x)) tr.

Definition returned {A : Type} (r : result A) : bool :=
  match r with Returned _ => true | Raised _ => false end.

(** ** The LightGBM notebook: python-sdk/notebooks/train-lightgbm-local.ipynb *)

Module Lightgbm.

(** Cell 1: [!pip install --upgrade numpy pandas scikit-learn lightgbm] *)
Definition cell_pip_install : Prog unit :=
  shell "pip install --upgrade numpy pandas scikit-learn lightgbm" ;;
  Ret tt.

(** Cell 2: setup cloud tracking.  Returns [ws]. *)
Definition cell_setup_tracking : Prog value :=
  import_ "mlflow" ;;
  import_ "azureml.core" ;;
  ws <- call_ "Workspace.from_config" [] [] ;;
  uri <- method ws "get_mlflow_tracking_uri" [] [] ;;
  call_ "mlflow.set_tracking_uri" [uri] [] ;;
  r <- call_ "mlflow.set_experiment" [VStr "lightgbm-iris-local-example"] [] ;;
  display r ;;
  Ret ws.

(** Cell 3 *)
Definition data_uri : value :=
  VStr "https://azuremlexamples.blob.core.windows.net/datasets/iris.csv".

(** Cell 4: load data.  Returns [df]. *)
Definition cell_load_data (data_uri : value) : Prog value :=
  import_ "pandas" ;;
  df <- call_ "pd.read_csv" [data_uri] [] ;;
  h <- method df "head" [] [] ;;
  display h ;;
  Ret df.

(** Cell 5: imports and function definitions. *)
Definition cell_imports : Prog unit :=
  import_ "time" ;;
  import_ "lightgbm" ;;
  import_ "sklearn.metrics" ;;
  import_ "sklearn.preprocessing" ;;
  import_ "sklearn.model_selection" ;;
  Ret tt.

Definition preprocess_data (df : value)
  : Prog (value * value * value * value * value) :=
  X <- method df "drop" [VList [VStr "species"]] [("axis", VInt 1)] ;;
  y <- method df "__getitem__" [VStr "species"] [] ;;
  enc <- call_ "LabelEncoder" [] [] ;;
  y <- method enc "fit_transform" [y] [] ;;
  s <- call_ "train_test_split" [X; y]
         [("test_size", VFloat 2 (-1)); ("random_state", VInt 42)] ;;
  '(X_train, X_test, y_train, y_test) <- unpack4 s ;;
  Ret (X_train, X_test, y_train, y_test, enc).

Definition train_model (params num_boost_round X_train X_test y_train y_test : value)
  : Prog (value * value) :=
  t1 <- call_ "time.time" [] [] ;;
  train_data <- call_ "lgb.Dataset" [X_train] [("label", y_train)] ;;
  test_data <- call_ "lgb.Dataset" [X_test] [("label", y_test)] ;;
  model <- call_ "lgb.train" [params; train_data]
             [("num_boost_round", num_boost_round);
              ("valid_sets", VList [test_data]);
              ("valid_names", VList [VStr "test"])] ;;
  t2 <- call_ "time.time" [] [] ;;
  dt <- binop "-" t2 t1 ;;
  Ret (model, dt).

Definition evaluate_model (model X_test y_test : value) : Prog (value * value) :=
  y_proba <- method model "predict" [X_test] [] ;;
  y_pred <- method y_proba "argmax" [] [("axis", VInt 1)] ;;
  loss <- call_ "log_loss" [y_test; y_proba] [] ;;
  acc <- call_ "accuracy_score" [y_test; y_pred] [] ;;
  Ret (loss, acc).

(** Cell 6: run a trial. *)
Definition params : value :=
  VDict [("objective", VStr "multiclass");
         ("num_class", VInt 3);
         ("learning_rate", VFloat 1 (-1));
         ("metric", VStr "multi_logloss");
         ("colsample_bytree", VFloat 10 (-1));
         ("subsample", VFloat 10 (-1));
         ("seed", VInt 42)].

Definition num_boost_round : value := VInt 32.

Definition cell_trial (df : value) : Prog unit :=
  import_ "sklearn.metrics" ;;
  '(X_train, X_test, y_train, y_test, enc) <- preprocess_data df ;;
  run_ <- call_ "mlflow.start_run" [] [] ;;
  call_ "mlflow.lightgbm.autolog" [] [] ;;
  '(model, train_time) <-
    train_model params num_boost_round X_train X_test y_train y_test ;;
  call_ "mlflow.log_metric" [VStr "training_time"; train_time] [] ;;
  '(loss, acc) <- evaluate_model model X_test y_test ;;
  call_ "mlflow.log_metrics" [VDict [("loss", loss); ("accuracy", acc)]] [] ;;
  r <- call_ "mlflow.end_run" [] [] ;;
  display r ;;
  Ret tt.

Definition notebook : Prog unit :=
  cell_pip_install ;;
  ws <- cell_setup_tracking ;;
  df <- cell_load_data data_uri ;;
  cell_imports ;;
  cell_trial df.

End Lightgbm.


(** ** The deployment notebook:
  python-sdk/tutorials/deploy-with-prebuilt-docker-images/pytorch-prebuilt-docker-image.ipynb *)

Module Deploy.

(** Cell 1: check core SDK version number. *)
Definition cell_sdk_version : Prog unit :=
  m <- import_ "azureml.core" ;;
  v <- getattr m "VERSION" ;;
  r <- print [VStr "SDK version:"; v] ;;
  display r ;;
  Ret tt.

(** Cell 2.  Returns [ws]. *)
Definition cell_workspace : Prog value :=
  import_ "azureml.core" ;;
  ws <- call_ "Workspace.from_config" [] [] ;;
  display ws ;;
  Ret ws.

(** Cell 3: register the model.  Returns [model]. *)
Definition cell_register (ws : value) : Prog value :=
  import_ "azureml.core.model" ;;
  model <- call_ "Model.register" []
             [("model_name", VStr "pytorch-birds-model");
              ("model_path", VStr "pytorch-birds/outputs/model.pt");
              ("workspace", ws)] ;;
  Ret model.

(** Cell 4: [%%writefile requirements.txt] *)
Definition cell_requirements : Prog unit :=
  do (WriteFile "requirements.txt"
        ["  torchvision==0.7.0"; "  future==0.17.1"; "  pillow==8.1.1";
         "  azureml.core==1.28.0"]) ;;
  Ret tt.

(** Cell 5: define the environment.  Returns [myenv]. *)
Definition cell_environment (ws : value) : Prog value :=
  import_ "azureml.core" ;;
  import_ "azureml.core.conda_dependencies" ;;
  myenv <- call_ "Environment" [] [("name", VStr "pytorch-deploy-prebuilt-example")] ;;
  d <- getattr myenv "docker" ;;
  setattr d "enabled" (VBool true) ;;
  d <- getattr myenv "docker" ;;
  setattr d "base_image"
    (VStr "mcr.microsoft.com/azureml/pytorch-1.6-ubuntu18.04-py37-cpu-inference:latest") ;;
  p <- getattr myenv "python" ;;
  setattr p "user_managed_dependencies" (VBool true) ;;
  method myenv "register" [] [("workspace", ws)] ;;
  setattr myenv "environment_variables"
    (VDict [("AZUREML_EXTRA_REQUIREMENTS_TXT", VStr "requirements.txt")]) ;;
  Ret myenv.

(** Cell 6: deploy to an ACI container.  Returns [service]. *)
Definition cell_deploy (ws model myenv : value) : Prog value :=
  import_ "azureml.core.webservice" ;;
  import_ "azureml.core.model" ;;
  import_ "azureml.core.webservice" ;;
  import_ "azureml.core.model" ;;
  inference_config <- call_ "InferenceConfig" []
      [("entry_script", VStr "pytorch_score.py"); ("environment", myenv)] ;;
  setattr inference_config "source_directory" (VStr "./") ;;
  aciconfig <- call_ "AciWebservice.deploy_configuration" []
      [("cpu_cores", VInt 2);
       ("memory_gb", VInt 2);
       ("tags", VDict [("data", VStr "birds");
                       ("method", VStr "transfer learning");
                       ("framework", VStr "pytorch")]);
       ("description",
        VStr "Classify turkey/chickens using transfer learning with PyTorch")] ;;
  service <- call_ "Model.deploy" []
      [("workspace", ws);
       ("name", VStr "deploy-aci-pytorch");
       ("models", VList [model]);
       ("inference_config", inference_config);
       ("deployment_config", aciconfig)] ;;
  method service "wait_for_deployment" [VBool true] [] ;;
  st <- getattr service "state" ;;
  r <- print [st] ;;
  display r ;;
  Ret service.

(** Cell 7 *)
Definition cell_get_logs (service : value) : Prog unit :=
  r <- method service "get_logs" [] [] ;;
  display r ;;
  Ret tt.

(** Cell 8 *)
Definition cell_scoring_uri (service : value) : Prog unit :=
  u <- getattr service "scoring_uri" ;;
  r <- print [u] ;;
  display r ;;
  Ret tt.

(** Cell 9: show the test image. *)
Definition cell_show_image : Prog unit :=
  import_ "json" ;;
  import_ "PIL" ;;
  import_ "matplotlib.pyplot" ;;
  magic "matplotlib inline" ;;
  img <- call_ "Image.open" [VStr "test_img.jpg"] [] ;;
  r <- call_ "plt.imshow" [img] [] ;;
  display r ;;
  Ret tt.

(** Cell 10: imports and [preprocess]. *)
Definition cell_imports : Prog unit :=
  import_ "torch" ;;
  import_ "torchvision" ;;
  Ret tt.

Definition preprocess (image_file : value) : Prog value :=
  t1 <- call_ "transforms.Resize" [VInt 256] [] ;;
  t2 <- call_ "transforms.CenterCrop" [VInt 224] [] ;;
  t3 <- call_ "transforms.ToTensor" [] [] ;;
  t4 <- call_ "transforms.Normalize"
          [VList [VFloat 485 (-3); VFloat 456 (-3); VFloat 406 (-3)];
           VList [VFloat 229 (-3); VFloat 224 (-3); VFloat 225 (-3)]] [] ;;
  data_transforms <- call_ "transforms.Compose" [VList [t1; t2; t3; t4]] [] ;;
  image <- call_ "Image.open" [image_file] [] ;;
  image <- method data_transforms "__call__" [image] [] ;;
  image <- method image "float" [] [] ;;
  image <- call_ "torch.tensor" [image] [] ;;
  image <- method image "unsqueeze" [VInt 0] [] ;;
  method image "numpy" [] [].

(** Cell 11: invoke the service. *)
Definition cell_invoke (service : value) : Prog unit :=
  input_data <- preprocess (VStr "test_img.jpg") ;;
  l <- method input_data "tolist" [] [] ;;
  body <- call_ "json.dumps" [VDict [("data", l)]] [] ;;
  result <- method service "run" [] [("input_data", body)] ;;
  r <- print [result] ;;
  display r ;;
  Ret tt.

(** Cell 12: clean up. *)
Definition cell_delete (service : value) : Prog unit :=
  r <- method service "delete" [] [] ;;
  display r ;;
  Ret tt.

Definition notebook : Prog unit :=
  cell_sdk_version ;;
  ws <- cell_workspace ;;
  model <- cell_register ws ;;
  cell_requirements ;;
  myenv <- cell_environment ws ;;
  service <- cell_deploy ws model myenv ;;
  cell_get_logs service ;;
  cell_scoring_uri service ;;
  cell_show_image ;;
  cell_imports ;;
  cell_invoke service ;;
  cell_delete service.

End Deploy.

(** ** The data-exploration notebook (Dask), second notebook of the same file *)

Module Dask.

(** Cell 1: install required packages. *)
Definition cell_pip_install : Prog unit :=
  shell ("pip install --upgrade dask distributed dask-sql bokeh adlfs fsspec "
         ++ "fastparquet pyarrow python-snappy lz4 "
         ++ dquote ++ "pandas>=1.2.0" ++ dquote) ;;
  Ret tt.

(** Cell 2.  Returns [ws]. *)
Definition cell_workspace : Prog value :=
  import_ "azureml.core" ;;
  ws <- call_ "Workspace.from_config" [] [] ;;
  display ws ;;
  Ret ws.

(** Cell 3: create a distributed client. *)
Definition cell_client : Prog value :=
  import_ "distributed" ;;
  c <- call_ "Client" [] [] ;;
  print [c] ;;
  l <- getattr c "dashboard_link" ;;
  print [l] ;;
  display c ;;
  Ret c.

(** Cell 4 *)
Definition account_name : value := VStr "azuremlexamples".
Definition container_name : value := VStr "datasets".
Definition storage_options : kwargs := [("account_name", account_name)].

(** Cell 5.  Returns [data_uri]. *)
Definition cell_https_uri (account_name container_name : value) : Prog value :=
  a <- format_value account_name ;;
  c <- format_value container_name ;;
  let data_uri := VStr ("https://" ++ a ++ ".blob.core.windows.net/" ++ c ++ "/iris.csv") in
  display data_uri ;;
  Ret data_uri.

(** Cell 6.  Returns [df]. *)
Definition cell_read_csv (data_uri : value) : Prog value :=
  import_ "pandas" ;;
  df <- call_ "pd.read_csv" [data_uri] [] ;;
  display df ;;
  Ret df.

(** Cell 7.  Returns [data_uri]. *)
Definition cell_az_uri (container_name : value) : Prog value :=
  c <- format_value container_name ;;
  let data_uri := VStr ("az://" ++ c ++ "/iris.csv") in
  display data_uri ;;
  Ret data_uri.

(** Cell 8.  Returns [df]. *)
Definition cell_read_csv_az (data_uri : value) (storage_options : kwargs) : Prog value :=
  import_ "pandas" ;;
  df <- call_ "pd.read_csv" [data_uri] [("storage_options", VDict storage_options)] ;;
  display df ;;
  Ret df.

(** Cell 9: private data.  Returns [container_name], [storage_options], [fs]. *)
Definition cell_datastore (ws : value) : Prog (value * kwargs * value) :=
  import_ "adlfs" ;;
  ds <- method ws "get_default_datastore" [] [] ;;
  container_name <- getattr ds "container_name" ;;
  an <- getattr ds "account_name" ;;
  ak <- getattr ds "account_key" ;;
  let storage_options := [("account_name", an); ("account_key", ak)] in
  fs <- call_ "AzureBlobFileSystem" [] storage_options ;;
  display fs ;;
  Ret (container_name, storage_options, fs).

(** Cells 10, 13, 14, 15: [fs.ls(f"...")] *)
Definition cell_ls (fs : value) (path : Prog string) : Prog unit :=
  p <- path ;;
  r <- method fs "ls" [VStr p] [] ;;
  display r ;;
  Ret tt.

(** Cell 11 *)
Definition color : value := VStr "green".
Definition container_name' : value := VStr "nyctlc".
Definition storage_options' : kwargs := [("account_name", VStr "azureopendatastorage")].

(** Cell 12.  Returns [fs]. *)
Definition cell_filesystem (storage_options : kwargs) : Prog value :=
  fs <- call_ "AzureBlobFileSystem" [] storage_options ;;
  display fs ;;
  Ret fs.

(** Cell 16.  Returns [files]. *)
Definition cell_glob (fs container_name color : value) : Prog value :=
  c <- format_value container_name ;;
  k <- format_value color ;;
  files <- method fs "glob" [VStr (c ++ "/" ++ k ++ "/puYear=2016/puMonth=12/*.parquet")] [] ;;
  items <- iterate files ;;
  files <- for_each (fun file => f <- format_value file ;; Ret (VStr ("az://" ++ f))) items ;;
  display (VList (last_n 5 files)) ;;
  Ret (VList files).

(** Cell 17: the distributed dataframe.  Returns [ddf]. *)
Definition cell_read_parquet (files : value) (storage_options : kwargs) : Prog value :=
  import_ "dask.dataframe" ;;
  d <- call_ "dd.read_parquet" [files] [("storage_options", VDict storage_options)] ;;
  d <- method d "repartition" [] [("npartitions", VInt 8)] ;;
  ddf <- method d "persist" [] [] ;;
  display ddf ;;
  Ret ddf.

(** Cells 18 and 19: [%%time] and [len(ddf)] *)
Definition cell_len (ddf : value) : Prog unit :=
  magic "%time" ;;
  n <- call_ "len" [ddf] [] ;;
  display n ;;
  Ret tt.

(** Cell 20 *)
Definition cell_info (ddf : value) : Prog unit :=
  r <- method ddf "info" [] [] ;;
  display r ;;
  Ret tt.

(** Cell 21: histogram of the tip amounts. *)
Definition cell_hist (ddf : value) : Prog unit :=
  import_ "matplotlib.pyplot" ;;
  call_ "plt.style.use" [VStr "dark_background"] [] ;;
  col <- method ddf "__getitem__" [VStr "tipAmount"] [] ;;
  s <- method col "compute" [] [] ;;
  r <- method s "hist" []
         [("figsize", VTuple [VInt 16; VInt 8]);
          ("bins", VInt 256);
          ("range", VTuple [VFloat 1 (-1); VInt 20])] ;;
  display r ;;
  Ret tt.

(** Cell 22.  Returns [df]. *)
Definition cell_compute (ddf : value) : Prog value :=
  df <- method ddf "compute" [] [] ;;
  r <- method df "info" [] [] ;;
  display r ;;
  Ret df.

(** Cell 23 *)
Definition cell_describe (df : value) : Prog unit :=
  magic "%time" ;;
  r <- method df "describe" [] [] ;;
  display r ;;
  Ret tt.

(** Cell 24: size of the local dataframe. *)
Definition cell_df_size (df : value) : Prog unit :=
  magic "%time" ;;
  m <- method df "memory_usage" [] [("index", VBool true); ("deep", VBool true)] ;;
  s <- method m "sum" [] [] ;;
  q <- binop "/" s (VFloat 1 9) ;;
  gbs <- call_ "round" [q; VInt 2] [] ;;
  g <- format_value gbs ;;
  r <- print [VStr ("df is " ++ g ++ " GBs")] ;;
  display r ;;
  Ret tt.

(** Cell 25: size of the distributed dataframe. *)
Definition cell_ddf_size (ddf : value) : Prog unit :=
  magic "%time" ;;
  m <- method ddf "memory_usage" [] [("index", VBool true); ("deep", VBool true)] ;;
  s <- method m "sum" [] [] ;;
  s <- method s "compute" [] [] ;;
  q <- binop "/" s (VFloat 1 9) ;;
  gbs <- call_ "round" [q; VInt 2] [] ;;
  g <- format_value gbs ;;
  r <- print [VStr ("ddf is " ++ g ++ " GBs")] ;;
  display r ;;
  Ret tt.

Definition notebook : Prog unit :=
  cell_pip_install ;;
  ws <- cell_workspace ;;
  c <- cell_client ;;
  data_uri <- cell_https_uri account_name container_name ;;
  df <- cell_read_csv data_uri ;;
  data_uri <- cell_az_uri container_name ;;
  df <- cell_read_csv_az data_uri storage_options ;;
  '(container_name, storage_options, fs) <- cell_datastore ws ;;
  cell_ls fs (format_value container_name) ;;
  fs <- cell_filesystem storage_options' ;;
  cell_ls fs (format_value container_name') ;;
  cell_ls fs (c <- format_value container_name' ;; k <- format_value color ;;
              Ret (c ++ "/" ++ k)) ;;
  cell_ls fs (c <- format_value container_name' ;; k <- format_value color ;;
              Ret (c ++ "/" ++ k ++ "/puYear=2016/")) ;;
  files <- cell_glob fs container_name' color ;;
  ddf <- cell_read_parquet files storage_options' ;;
  cell_len ddf ;;
  cell_len ddf ;;
  cell_info ddf ;;
  cell_hist ddf ;;
  df <- cell_compute ddf ;;
  cell_describe df ;;
  cell_df_size df ;;
  cell_ddf_size ddf.

End Dask.

(** *** Reasoning about every oracle at once *)

(** [wp h p Q past w]: whatever the oracle [h] answers from world [w] on,
    running [p] after the calls [past] (latest first) ends in [Q]. *)
Fixpoint wp {W R : Type} (h : oracle W) (p : Prog R)
    (Q : result R -> trace -> W -> Prop) (past : trace) (w : W) : Prop :=
  match p with
  | Ret r => Q (Returned r) (rev past) w
  | Raise e => Q (Raised e) (rev past) w
  | Do c k =>
      forall o w', h c w = (o, w') ->
        match o with
        | Returned v => wp h (k v) Q ((c, o) :: past) w'
        | Raised e => Q (Raised e) (rev ((c, o) :: past)) w'
        end
  | Try body handler k =>
      Q (outcome_of (run h (Try body handler k) w))
        (rev past ++ trace_of (run h (Try body handler k) w))%list
        (world_of (run h (Try body handler k) w))
  end.


(** ** The experiment-tracking run of the LightGBM notebook *)

Definition is_call (f : string) (c : call) : bool :=
  match c with Call g _ _ => String.eqb f g | _ => false end.

(** A call to the tracking library: a function of the [mlflow] module. *)
Definition is_tracking (c : call) : bool :=
  match c with Call g _ _ => String.prefix "mlflow." g | _ => false end.

Definition is_metric_logging (c : call) : bool :=
  is_call "mlflow.log_metric" c || is_call "mlflow.log_metrics" c.

Fixpoint after_first (f : string) (l : list call) : list call :=
  match l with
  | [] => []
  | c :: l' => if is_call f c then l' else after_first f l'
  end.

Fixpoint up_to (f : string) (l : list call) : list call :=
  match l with
  | [] => []
  | c :: l' => if is_call f c then [] else c :: up_to f l'
  end.

(** The calls issued after [mlflow.start_run] and before [mlflow.end_run]. *)
Definition within_run (tr : trace) : list call :=
  up_to "mlflow.end_run" (after_first "mlflow.start_run" (calls tr)).

Definition count_calls (f : string) (tr : trace) : nat :=
  length (List.filter (is_call f) (calls tr)).

(** The run discipline as the specification words it: between start and end
    only metric-logging calls reach the tracking library, and the run is
    started and ended once. *)
Definition only_tracking (allowed : call -> bool) (tr : trace) : bool :=
  forallb (fun c => implb (is_tracking c) (allowed c)) (within_run tr).

Definition metrics_only_run (tr : trace) : Prop :=
  only_tracking is_metric_logging tr = true /\
  count_calls "mlflow.start_run" tr = 1%nat /\
  count_calls "mlflow.end_run" tr = 1%nat.

Definition autolog_or_metric (c : call) : bool :=
  is_call "mlflow.lightgbm.autolog" c || is_metric_logging c.



(** ** The order of the deployment notebook *)

Definition deployment_steps : list string :=
  ["Model.register"; "InferenceConfig"; "Model.deploy"; ".run"; ".delete"].

Definition is_deployment_step (l : string) : bool :=
  existsb (String.eqb l) deployment_steps.

(** The deployment steps of a trace, in the order they were issued. *)
Definition steps_of (tr : trace) : list string :=
  List.filter is_deployment_step (labels tr).

Fixpoint is_prefix (l k : list string) : bool :=
  match l, k with
  | [], _ => true
  | a :: l', b :: k' => String.eqb a b && is_prefix l' k'
  | _ :: _, [] => false
  end.

Definition dict_get (key : string) (items : list (string * value)) : option value :=
  match List.find (fun kv => String.eqb key (fst kv)) items with
  | Some kv => Some (snd kv)
  | None => None
  end.

(** The five steps with the values that flow between them: the registered
    model and the inference configuration are what is deployed, with the ACI
    deployment configuration, and the deployed service is what is invoked
    and then deleted. *)
Definition deployment_flow (tr : trace) : Prop :=
  exists ws myenv model inference_config aci_kw aciconfig service body o_run o_delete,
    [ (Call "Model.register" []
         [("model_name", VStr "pytorch-birds-model");
          ("model_path", VStr "pytorch-birds/outputs/model.pt");
          ("workspace", ws)], Returned model);
      (Call "InferenceConfig" []
         [("entry_script", VStr "pytorch_score.py"); ("environment", myenv)],
       Returned inference_config);
      (Call "AciWebservice.deploy_configuration" [] aci_kw, Returned aciconfig);
      (Call "Model.deploy" []
         [("workspace", ws);
          ("name", VStr "deploy-aci-pytorch");
          ("models", VList [model]);
          ("inference_config", inference_config);
          ("deployment_config", aciconfig)], Returned service);
      (Method service "run" [] [("input_data", body)], o_run);
      (Method service "delete" [] [], o_delete) ]
    `sublist_of` tr.


(** ** What the training notebook fits and logs *)

(** The calls of a completed trial, with the values that flow between them. *)
Definition training_flow (tr : trace) : Prop :=
  exists df X y0 enc y s X_train X_test y_train y_test
         t1 train_data test_data model t2 train_time
         y_proba y_pred loss acc o1 o2,
    unpack4 s = Ret (X_train, X_test, y_train, y_test) /\
    [ (Call "pd.read_csv" [Lightgbm.data_uri] [], Returned df);
      (Method df "drop" [VList [VStr "species"]] [("axis", VInt 1)], Returned X);
      (Method df "__getitem__" [VStr "species"] [], Returned y0);
      (Call "LabelEncoder" [] [], Returned enc);
      (Method enc "fit_transform" [y0] [], Returned y);
      (Call "train_test_split" [X; y]
         [("test_size", VFloat 2 (-1)); ("random_state", VInt 42)], Returned s);
      (Call "time.time" [] [], Returned t1);
      (Call "lgb.Dataset" [X_train] [("label", y_train)], Returned train_data);
      (Call "lgb.Dataset" [X_test] [("label", y_test)], Returned test_data);
      (Call "lgb.train" [Lightgbm.params; train_data]
         [("num_boost_round", Lightgbm.num_boost_round);
          ("valid_sets", VList [test_data]);
          ("valid_names", VList [VStr "test"])], Returned model);
      (Call "time.time" [] [], Returned t2);
      (BinOp "-" t2 t1, Returned train_time);
      (Call "mlflow.log_metric" [VStr "training_time"; train_time] [], o1);
      (Method model "predict" [X_test] [], Returned y_proba);
      (Method y_proba "argmax" [] [("axis", VInt 1)], Returned y_pred);
      (Call "log_loss" [y_test; y_proba] [], Returned loss);
      (Call "accuracy_score" [y_test; y_pred] [], Returned acc);
      (Call "mlflow.log_metrics" [VDict [("loss", loss); ("accuracy", acc)]] [], o2) ]
    `sublist_of` tr.

Definition dict_of (v : value) : list (string * value) :=
  match v with VDict items => items | _ => [] end.

(** ** Exceptions *)

Definition notebooks : list (Prog unit) :=
  [Lightgbm.notebook; Deploy.notebook; Dask.notebook].

(** ** The distributed dataframe handle of the data-exploration notebook *)

Definition is_method (m : string) (c : call) : bool :=
  match c with Method _ n _ _ => String.eqb m n | _ => false end.

Definition is_display (c : call) : bool :=
  match c with Display _ => true | _ => false end.

Definition same_object (a b : value) : bool :=
  match a, b with VObj i, VObj j => Nat.eqb i j | _, _ => false end.

(** The dask dataframe of a run: what [dd.read_parquet], [.repartition] and
    [.persist] returned; the last of them is bound to [ddf]. *)
Definition dataframe_handles (tr : trace) : list value :=
  flat_map (fun x =>
              match snd x with
              | Returned v =>
                  if is_call "dd.read_parquet" (fst x) || is_method "repartition" (fst x)
                     || is_method "persist" (fst x)
                  then [v] else []
              | Raised _ => []
              end) tr.

(** The object a call operates on. *)
Definition operand (c : call) : option value :=
  match c with
  | Method r _ _ _ | GetAttr r _ | SetAttr r _ _ | BinOp _ r _ | Display r => Some r
  | Call _ (a :: _) _ => Some a
  | _ => None
  end.

Definition handle_operations (tr : trace) : list call :=
  List.filter (fun c =>
                 match operand c with
                 | Some v => existsb (same_object v) (dataframe_handles tr)
                 | None => false
                 end) (calls tr).

(** Dask's documented behaviour: [compute], [persist] and [len] compute the
    partitions of a dataframe, [info] and its display show what it holds; the
    other operations only extend the task graph. *)
Definition materialises_or_examines (c : call) : bool :=
  is_method "compute" c || is_method "persist" c || is_call "len" c
  || is_method "info" c || is_display c.

(** The wording of the specification: nothing but [.compute()] materialises
    or examines the handle. *)
Definition only_compute (tr : trace) : Prop :=
  forallb (fun c => implb (materialises_or_examines c) (is_method "compute" c))
          (handle_operations tr) = true.



(** ** Executions in which every call succeeds *)

(** What the notebook code itself relies on in an answer: [train_test_split]
    answers a sequence of four, [fs.glob] a list, and [format] a string. *)
Definition documented_shape (c : call) (v : value) : bool :=
  if is_call "train_test_split" c then
    match unpack4 v with Ret _ => true | _ => false end
  else if is_method "glob" c then
    match v with VList _ | VTuple _ | VArray _ => true | _ => false end
  else if is_call "format" c then
    match v with VStr _ => true | _ => false end
  else true.

(** Every call of the trace returned, with the documented shape. *)
Definition succeeded (tr : trace) : bool :=
  forallb (fun x => match snd x with
                    | Returned v => documented_shape (fst x) v
                    | Raised _ => false
                    end) tr.

(** A program that returns whenever all its calls succeed. *)
Definition safe {W R : Type} (h : oracle W) (p : Prog R) : Prop :=
  forall w, succeeded (trace_of (run h p w)) = true ->
            returned (outcome_of (run h p w)) = true.

(** ** Where an exception can come from *)

Definition exn_eqb (a b : exn) : bool :=
  match a, b with
  | PyExn c1 m1, PyExn c2 m2 => String.eqb c1 c2 && String.eqb m1 m2
  end.

(** The exceptions Python itself raises in the notebooks: on an answer that
    cannot be unpacked ([unpack4]), formatted ([format_value]) or iterated
    ([iterate]). *)
Definition builtin_errors : list exn :=
  [PyExn "ValueError" "wrong number of values to unpack";
   PyExn "TypeError" "cannot unpack non-iterable object";
   PyExn "TypeError" "__format__ must return a str";
   PyExn "TypeError" "object is not iterable"].

Definition builtin_error (e : exn) : bool := existsb (exn_eqb e) builtin_errors.

(** Code that has no handler and raises nothing of its own: it issues
    calls, and the only exceptions raised on the spot are those of the
    operations of the language. *)
Inductive plain : forall {R : Type}, Prog R -> Prop :=
| plain_ret {R : Type} (r : R) : plain (Ret r)
| plain_raise {R : Type} (e : exn) : builtin_error e = true -> plain (@Raise R e)
| plain_do {R : Type} (c : call) (k : value -> Prog R) :
    (forall v, plain (k v)) -> plain (Do c k).

(** A run that ends with an exception got it from its last call, or it is
    one of Python's own. *)
Definition raises_faithfully {W R : Type} (h : oracle W) (p : Prog R) : Prop :=
  forall w e,
    outcome_of (run h p w) = Raised e ->
    (exists c, last (trace_of (run h p w)) = Some (c, Raised e)) \/
    builtin_error e = true.

(** Code with a handler, for comparison: it calls [Model.deploy] and, when
    that raises, either goes on as if nothing had happened or raises an
    error of its own in place of the one it caught. *)
Definition swallowing : Prog unit :=
  Try (call_ "Model.deploy" [] []) (fun _ => Ret VNone) (fun _ => Ret tt).

Definition wrapping : Prog unit :=
  Try (call_ "Model.deploy" [] [])
      (fun _ => Raise (PyExn "DeploymentError" "could not deploy"))
      (fun _ => Ret tt).

(** Code that turns an answer into an error of its own. *)
Definition translating : Prog unit :=
  Do (Call "Model.deploy" [] [])
     (fun v => match v with
               | VNone => Raise (PyExn "ValueError" "no service")
               | _ => Ret tt
               end).
(** ** A nominal outside world *)

(** Every call returns; each answer is a fresh opaque object, except where
    the notebook code itself needs a shape: [train_test_split] answers a list
    of four objects, [fs.glob] a list of paths and [format] a string. *)
Definition nominal : oracle nat :=
  fun c n =>
    match c with
    | Call "train_test_split" _ _ =>
        (Returned (VList [VObj n; VObj (S n); VObj (S (S n)); VObj (S (S (S n)))]),
         (n + 4)%nat)
    | Method _ "glob" _ _ =>
        (Returned (VList [VStr "nyctlc/green/puYear=2016/puMonth=12/part-00000.snappy.parquet";
                          VStr "nyctlc/green/puYear=2016/puMonth=12/part-00001.snappy.parquet"]),
         n)
    | Call "format" _ _ => (Returned (VStr "object"), n)
    | _ => (Returned (VObj n), S n)
    end.


(** A world in which the deployment fails. *)
Definition deployment_failure : exn :=
  PyExn "WebserviceException" "Service deployment polling reached non-successful terminal state".

Definition failing_deploy : oracle nat :=
  fun c n =>
    if is_call "Model.deploy" c then (Raised deployment_failure, n) else nominal c n.


(** The data-exploration notebook with every call answered. *)
Definition dask_trace : trace := trace_of (run nominal Dask.notebook 0%nat).

(** A world in which every call returns [None]. *)
Definition answers_none : oracle nat := fun _ n => (Returned VNone, n).

(** ** The pandas and scikit-learn calls of [preprocess_data]

    [preprocess_data] is glue around four library calls.  To state what it
    returns, these calls are answered by an oracle that follows the
    documented behaviour of the libraries on dataframes held as values:
    [DataFrame.drop], [DataFrame.__getitem__], [LabelEncoder.fit_transform]
    and [train_test_split].  The pseudo-random permutation drawn by numpy is
    a parameter. *)

(** *** pandas *)

Definition has_label (labels : list string) (c : string) : bool :=
  existsb (String.eqb c) labels.

Fixpoint select {A : Type} (mask : list bool) (l : list A) : list A :=
  match mask, l with
  | b :: mask', x :: l' => if b then x :: select mask' l' else select mask' l'
  | _, _ => []
  end.

Definition count_true (mask : list bool) : nat :=
  length (List.filter (fun b => b) mask).

(** [df.drop(labels, axis=1)]: every label must name a column; all columns
    with one of the labels are removed. *)
Definition frame_drop (labels : list string) (df : value) : outcome :=
  match df with
  | VFrame cols rows =>
      if forallb (has_label cols) labels then
        let mask := map (fun c => negb (has_label labels c)) cols in
        Returned (VFrame (select mask cols)
                         (map (fun r => (fst r, select mask (snd r))) rows))
      else Raised (PyExn "KeyError" "labels not found in axis")
  | _ => Raised (PyExn "AttributeError" "object has no attribute drop")
  end.

(** [df[key]]: a Series when one column has the label, a DataFrame when
    several have it. *)
Definition frame_getitem (key : string) (df : value) : outcome :=
  match df with
  | VFrame cols rows =>
      let mask := map (String.eqb key) cols in
      match count_true mask with
      | O => Raised (PyExn "KeyError" key)
      | S O => Returned (VSeries (map (fun r => (fst r, hd VNone (select mask (snd r)))) rows))
      | _ => Returned (VFrame (select mask cols)
                              (map (fun r => (fst r, select mask (snd r))) rows))
      end
  | _ => Raised (PyExn "TypeError" "object is not subscriptable")
  end.

(** *** scikit-learn: label encoding *)

(** [column_or_1d]: the values of a one-dimensional input. *)
Definition column_or_1d (y : value) : result (list value) :=
  match y with
  | VSeries cells => Returned (map snd cells)
  | VArray items | VList items | VTuple items => Returned items
  | VFrame [_] rows => Returned (map (fun r => hd VNone (snd r)) rows)
  | _ => Raised (PyExn "ValueError" "y should be a 1d array")
  end.

Fixpoint insert_unique {A : Type} (cmp : A -> A -> comparison) (a : A) (l : list A) : list A :=
  match l with
  | [] => [a]
  | x :: l' =>
      match cmp a x with
      | Lt => a :: l
      | Eq => l
      | Gt => x :: insert_unique cmp a l'
      end
  end.

(** [numpy.unique]: the distinct values in increasing order. *)
Definition unique_sorted {A : Type} (cmp : A -> A -> comparison) (l : list A) : list A :=
  fold_right (insert_unique cmp) [] l.

Fixpoint index_of {A : Type} (cmp : A -> A -> comparison) (a : A) (l : list A) : Z :=
  match l with
  | [] => 0
  | x :: l' => match cmp a x with Eq => 0 | _ => 1 + index_of cmp a l' end
  end.

Fixpoint strings_of (l : list value) : option (list string) :=
  match l with
  | [] => Some []
  | VStr s :: l' => match strings_of l' with Some ss => Some (s :: ss) | None => None end
  | _ => None
  end.

Fixpoint ints_of (l : list value) : option (list Z) :=
  match l with
  | [] => Some []
  | VInt n :: l' => match ints_of l' with Some ns => Some (n :: ns) | None => None end
  | _ => None
  end.

(** A number as a decimal: booleans count as 0 and 1, as in numpy. *)
Definition number_of (v : value) : option (Z * Z) :=
  match v with
  | VBool b => Some (if b then 1 else 0, 0)
  | VInt n => Some (n, 0)
  | VFloat d e => Some (d, e)
  | _ => None
  end.

Fixpoint numbers_of (l : list value) : option (list value) :=
  match l with
  | [] => Some []
  | v :: l' =>
      match number_of v, numbers_of l' with
      | Some _, Some vs => Some (v :: vs)
      | _, _ => None
      end
  end.

(** The order of two numbers, [d1 * 10^e1] against [d2 * 10^e2]. *)
Definition number_compare (a b : value) : comparison :=
  match number_of a, number_of b with
  | Some (d1, e1), Some (d2, e2) =>
      let m := Z.min e1 e2 in
      Z.compare (d1 * 10 ^ (e1 - m)) (d2 * 10 ^ (e2 - m))
  | _, _ => Eq
  end.

(** A missing label ([None], or NaN in a column that pandas read). *)
Definition is_missing (v : value) : bool :=
  match v with VNone => true | _ => false end.

Definition present (vals : list value) : list value :=
  List.filter (fun v => negb (is_missing v)) vals.

(** The order of two labels of the same kind. *)
Definition label_compare (a b : value) : comparison :=
  match a, b with
  | VStr s, VStr t => String.compare s t
  | _, _ => number_compare a b
  end.

(** Labels some of which are missing: the classes are the sorted distinct
    labels that are present, followed by the missing one. *)
Definition encode_with_missing (vals : list value) : result (list value * list value) :=
  match strings_of (present vals), numbers_of (present vals) with
  | None, None =>
      Raised (PyExn "TypeError"
                "Encoders require their input argument must be uniformly strings or numbers")
  | _, _ =>
      let classes := unique_sorted label_compare (present vals) in
      Returned ((classes ++ [VNone])%list,
                map (fun v => VInt (if is_missing v then Z.of_nat (length classes)
                                    else index_of label_compare v classes)) vals)
  end.

(** [LabelEncoder().fit_transform(y)]: the classes (sorted distinct labels)
    and the code of each label, its position among the classes.  The labels
    are all strings or all numbers (integers, floats, booleans), apart from
    missing ones; on a mixture of strings and numbers scikit-learn raises a
    TypeError. *)
Definition label_encode (y : value) : result (list value * list value) :=
  match column_or_1d y with
  | Raised e => Raised e
  | Returned vals =>
      match strings_of vals, ints_of vals, numbers_of vals with
      | Some ss, _, _ =>
          let classes := unique_sorted String.compare ss in
          Returned (map VStr classes,
                    map (fun s => VInt (index_of String.compare s classes)) ss)
      | None, Some ns, _ =>
          let classes := unique_sorted Z.compare ns in
          Returned (map VInt classes,
                    map (fun n => VInt (index_of Z.compare n classes)) ns)
      | None, None, Some xs =>
          let classes := unique_sorted number_compare xs in
          Returned (classes,
                    map (fun x => VInt (index_of number_compare x classes)) xs)
      | None, None, None =>
          if existsb is_missing vals then encode_with_missing vals
          else Raised (PyExn "TypeError"
                         "Encoders require their input argument must be uniformly strings or numbers")
      end
  end.

(** *** scikit-learn: train_test_split *)

Definition n_samples (a : value) : option nat :=
  match a with
  | VFrame _ rows => Some (length rows)
  | VSeries cells => Some (length cells)
  | VArray items | VList items | VTuple items => Some (length items)
  | _ => None
  end.

(** [_safe_indexing]: the rows at the given positions, in that order. *)
Definition take_rows (idx : list nat) (a : value) : value :=
  match a with
  | VFrame cols rows => VFrame cols (omap (fun i => rows !! i) idx)
  | VSeries cells => VSeries (omap (fun i => cells !! i) idx)
  | VArray items => VArray (omap (fun i => items !! i) idx)
  | VList items => VList (omap (fun i => items !! i) idx)
  | VTuple items => VList (omap (fun i => items !! i) idx)
  | _ => a
  end.

Definition ceil_div (a b : Z) : Z := (a + b - 1) / b.

(** The size of the test part: a float [test_size] strictly between 0 and 1
    gives [ceil(test_size * n)], an integer gives that many rows, no
    [test_size] gives a quarter.  The product is taken on the decimal
    literal; for 0.2 the double-precision product has the same ceiling. *)
Definition test_count (test_size : option value) (n : nat) : result nat :=
  match test_size with
  | None | Some VNone => Returned (Z.to_nat (ceil_div (Z.of_nat n) 4))
  | Some (VFloat d e) =>
      if (0 <? d) && (e <? 0) && (d <? 10 ^ (- e))
      then Returned (Z.to_nat (ceil_div (d * Z.of_nat n) (10 ^ (- e))))
      else Raised (PyExn "ValueError" "test_size should be in the (0, 1) range")
  | Some (VInt k) =>
      if (0 <? k) && (k <? Z.of_nat n)
      then Returned (Z.to_nat k)
      else Raised (PyExn "ValueError" "test_size should be in the (0, n_samples) range")
  | Some _ => Raised (PyExn "ValueError" "Invalid value for test_size")
  end.

(** [train_test_split] on some arrays, once the permutation [perm] of
    the row positions is drawn: the first [n_test] positions are the test
    part, the others the training part; the answer lists, for each array,
    its training part and then its test part. *)
Definition split_arrays (perm : nat -> list nat) (arrays : list value) (kw : kwargs)
  : outcome :=
  match arrays with
  | [] => Raised (PyExn "ValueError" "At least one array required as input")
  | a :: _ =>
      match n_samples a with
      | None => Raised (PyExn "TypeError" "Expected sequence or array-like")
      | Some n =>
          if forallb (fun b => match n_samples b with
                               | Some m => Nat.eqb m n
                               | None => false
                               end) arrays
          then
            match test_count (dict_get "test_size" kw) n with
            | Raised e => Raised e
            | Returned n_test =>
                if Nat.eqb (n - n_test) 0
                then Raised (PyExn "ValueError" "the resulting train set will be empty")
                else
                  let p := perm n in
                  let ind_test := take n_test p in
                  let ind_train := drop n_test p in
                  Returned (VList (flat_map (fun b => [take_rows ind_train b;
                                                       take_rows ind_test b]) arrays))
            end
          else Raised (PyExn "ValueError"
                         "Found input variables with inconsistent numbers of samples")
      end
  end.

(** *** The oracle *)

(** The world of the data libraries: numpy's global random state and the
    classes of each fitted encoder. *)
Record pyworld : Type := PyWorld {
  np_random : Z;
  fitted : gmap nat (list value);
  next_id : nat
}.

Section PyData.

(** [permutation s n]: the permutation of [0 .. n-1] that a generator in
    state [s] draws; [RandomState(seed)] starts in state [seed].  [advance]
    is the state after the draw.  With [random_state=None] the draw is made
    by numpy's global generator, which it advances. *)
Variable permutation : Z -> nat -> list nat.
Variable advance : Z -> Z.

Definition not_modelled : exn :=
  PyExn "NotImplementedError" "call outside the modelled libraries".

Definition fit_transform (recv y : value) (w : pyworld) : outcome * pyworld :=
  match recv with
  | VObj enc =>
      match label_encode y with
      | Returned (classes, codes) =>
          (Returned (VArray codes),
           PyWorld (np_random w) (<[enc := classes]> (fitted w)) (next_id w))
      | Raised e => (Raised e, w)
      end
  | _ => (Raised (PyExn "AttributeError" "object has no attribute fit_transform"), w)
  end.

Definition train_test_split (arrays : list value) (kw : kwargs) (w : pyworld)
  : outcome * pyworld :=
  match dict_get "random_state" kw with
  | Some (VInt seed) => (split_arrays (permutation seed) arrays kw, w)
  | None | Some VNone =>
      (split_arrays (permutation (np_random w)) arrays kw,
       PyWorld (advance (np_random w)) (fitted w) (next_id w))
  | Some _ =>
      (Raised (PyExn "ValueError" "cannot be used to seed a RandomState instance"), w)
  end.

Definition pydata : oracle pyworld :=
  fun c w =>
    match c with
    | Method recv m args kw =>
        match m, args, kw with
        | "drop", [VList [VStr l]], [("axis", VInt 1)] => (frame_drop [l] recv, w)
        | "__getitem__", [VStr key], [] => (frame_getitem key recv, w)
        | "fit_transform", [y], [] => fit_transform recv y w
        | _, _, _ => (Raised not_modelled, w)
        end
    | Call f args kw =>
        match f, args, kw with
        | "LabelEncoder", [], [] =>
            (Returned (VObj (next_id w)),
             PyWorld (np_random w) (fitted w) (S (next_id w)))
        | "train_test_split", _, _ => train_test_split args kw w
        | _, _, _ => (Raised not_modelled, w)
        end
    | _ => (Raised not_modelled, w)
    end.

End PyData.

(** The classes of a fitted encoder. *)
Definition classes_of (enc : value) (w : pyworld) : option (list value) :=
  match enc with
  | VObj id => fitted w !! id
  | _ => None
  end.

(** *** What [preprocess_data] is said to return *)

Definition frame_columns (df : value) : list string :=
  match df with VFrame cols _ => cols | _ => [] end.

Definition frame_rows (df : value) : list (Z * list value) :=
  match df with VFrame _ rows => rows | _ => [] end.

Definition array_items (y : value) : list value :=
  match y with VArray items => items | _ => [] end.

(** The outcome of [preprocess_data df] described from [df]: feature frames
    with the columns of [df] but "species", labels that are the encoded
    "species" column, the same positions of the rows in the training (test)
    frame and the training (test) labels, every position in exactly one of
    the two parts, and a test part whose size [n_test] stands in the given
    relation to the number of rows. *)
Definition split_of (size_ok : nat -> nat -> Prop) (df : value)
    (r : value * value * value * value * value) (w : pyworld) : Prop :=
  let '(X_train, X_test, y_train, y_test, enc) := r in
  let cols := List.filter (fun c => negb (String.eqb c "species")) (frame_columns df) in
  exists X classes codes ind_train ind_test,
    frame_drop ["species"] df = Returned X /\
    (exists y0, frame_getitem "species" df = Returned y0 /\
                label_encode y0 = Returned (classes, codes)) /\
    classes_of enc w = Some classes /\
    frame_columns X = cols /\
    frame_columns X_train = cols /\ frame_columns X_test = cols /\
    Permutation (ind_train ++ ind_test) (seq 0 (length (frame_rows df))) /\
    X_train = take_rows ind_train X /\ X_test = take_rows ind_test X /\
    y_train = take_rows ind_train (VArray codes) /\
    y_test = take_rows ind_test (VArray codes) /\
    Permutation (frame_rows X_train ++ frame_rows X_test) (frame_rows X) /\
    Permutation (array_items y_train ++ array_items y_test) codes /\
    length (frame_rows X_test) = length ind_test /\
    size_ok (length (frame_rows df)) (length ind_test).

(** The test part holds exactly the fraction 0.2 of the rows. *)
Definition fifth_exactly (n n_test : nat) : Prop := (5 * n_test = n)%nat.

(** The test part holds 0.2 of the rows, rounded up. *)
Definition fifth_rounded_up (n n_test : nat) : Prop :=
  Z.of_nat n_test = ceil_div (Z.of_nat n) 5.

(** The wording of the specification, for one dataframe: whatever the state
    of the libraries, the call returns such a split. *)
Definition returns_fifth_split (permutation : Z -> nat -> list nat) (advance : Z -> Z)
    (df : value) : Prop :=
  forall w, exists r,
    outcome_of (run (pydata permutation advance) (Lightgbm.preprocess_data df) w)
      = Returned r /\
    split_of fifth_exactly df r
      (world_of (run (pydata permutation advance) (Lightgbm.preprocess_data df) w)).

(** Two runs gave the same answer: the same exception, or the same splits and
    encoders fitted with the same classes. *)
Definition same_answer
    (x1 x2 : result (value * value * value * value * value) * trace * pyworld) : Prop :=
  match outcome_of x1, outcome_of x2 with
  | Returned (a1, b1, c1, d1, enc1), Returned (a2, b2, c2, d2, enc2) =>
      a1 = a2 /\ b1 = b2 /\ c1 = c2 /\ d1 = d2 /\
      exists classes,
        classes_of enc1 (world_of x1) = Some classes /\
        classes_of enc2 (world_of x2) = Some classes
  | Raised e1, Raised e2 => e1 = e2
  | _, _ => False
  end.

(** Sample data: rows of the iris table, and a generator that draws the
    positions in decreasing order. *)
Definition iris_row (i : Z) (species : string) : Z * list value :=
  (i, [VFloat 51 (-1); VFloat 35 (-1); VFloat 14 (-1); VFloat 2 (-1); VStr species]).

Definition iris_columns : list string :=
  ["sepal_length"; "sepal_width"; "petal_length"; "petal_width"; "species"].

Definition iris5 : value :=
  VFrame iris_columns
    [iris_row 0 "setosa"; iris_row 1 "versicolor"; iris_row 2 "virginica";
     iris_row 3 "setosa"; iris_row 4 "versicolor"].

Definition iris7 : value :=
  VFrame iris_columns
    [iris_row 0 "setosa"; iris_row 1 "versicolor"; iris_row 2 "virginica";
     iris_row 3 "setosa"; iris_row 4 "versicolor"; iris_row 5 "virginica";
     iris_row 6 "setosa"].

Definition iris1 : value := VFrame iris_columns [iris_row 0 "setosa"].

Definition descending (_ : Z) (n : nat) : list nat := rev (seq 0 n).

(** A generator whose draw depends on its state. *)
Definition by_state (s : Z) (n : nat) : list nat :=
  if Z.even s then seq 0 n else rev (seq 0 n).

Definition pyworld0 : pyworld := PyWorld 0 ∅ 0.

(** The "species" column of a dataframe can be encoded: exactly one column
    has that label and its values are uniformly strings or integers. *)
Definition species_values (cols : list string) (rows : list (Z * list value)) : list value :=
  map (fun r => hd VNone (select (map (String.eqb "species") cols) (snd r))) rows.

Definition encodable_species (cols : list string) (rows : list (Z * list value)) : bool :=
  Nat.eqb (count_true (map (String.eqb "species") cols)) 1
  && (match strings_of (species_values cols rows) with Some _ => true | None => false end
      || match ints_of (species_values cols rows) with Some _ => true | None => false end).

(** The "species" column of a dataframe is one that [LabelEncoder] accepts:
    exactly one column has that label and its values, apart from missing
    ones, are all strings or all numbers (integers, floats, booleans). *)
Definition accepted_species (cols : list string) (rows : list (Z * list value)) : bool :=
  Nat.eqb (count_true (map (String.eqb "species") cols)) 1
  && (match strings_of (present (species_values cols rows)) with
      | Some _ => true
      | None => false
      end
      || match numbers_of (present (species_values cols rows)) with
         | Some _ => true
         | None => false
         end).

(** Sample data with other labels: measured values as labels, a label that
    is missing, a mixture of strings and numbers, and a table with two
    "species" columns. *)
Definition labelled_row (i : Z) (label : value) : Z * list value :=
  (i, [VFloat 51 (-1); VFloat 35 (-1); VFloat 14 (-1); VFloat 2 (-1); label]).

Definition graded5 : value :=
  VFrame iris_columns
    [labelled_row 0 (VFloat 15 (-1)); labelled_row 1 (VFloat 5 (-1));
     labelled_row 2 (VFloat 150 (-2)); labelled_row 3 (VFloat 25 (-1));
     labelled_row 4 (VFloat 5 (-1))].

Definition sparse5 : value :=
  VFrame iris_columns
    [labelled_row 0 (VStr "setosa"); labelled_row 1 VNone;
     labelled_row 2 (VStr "virginica"); labelled_row 3 (VStr "setosa");
     labelled_row 4 (VStr "versicolor")].

Definition mixed5 : value :=
  VFrame iris_columns
    [labelled_row 0 (VStr "setosa"); labelled_row 1 (VInt 1);
     labelled_row 2 (VStr "virginica"); labelled_row 3 (VInt 1);
     labelled_row 4 (VStr "setosa")].

Definition twice5 : value :=
  VFrame ["sepal_length"; "species"; "species"]
    [(0, [VFloat 51 (-1); VStr "setosa"; VStr "setosa"]);
     (1, [VFloat 49 (-1); VStr "setosa"; VStr "setosa"]);
     (2, [VFloat 70 (-1); VStr "versicolor"; VStr "versicolor"]);
     (3, [VFloat 64 (-1); VStr "versicolor"; VStr "versicolor"]);
     (4, [VFloat 63 (-1); VStr "virginica"; VStr "virginica"])].

(** ** The CI workflows *)

Inductive trigger : Type :=
| Push (branches : list string)
| PullRequest (branches : list string) (paths : list string)
| Schedule (cron : string).

Record step : Type := Step {
  step_name : string;
  uses : option string;
  with_args : list (string * string);
  run_line : option string;
  working_directory : option string
}.

Record job : Type := Job {
  job_id : string;
  runs_on : string;
  steps : list step
}.

Record workflow : Type := Workflow {
  workflow_name : string;
  on : list trigger;
  jobs : list job
}.

Definition uses_step (n a : string) (w : list (string * string)) : step :=
  Step n (Some a) w None None.

Definition run_step_in (n : string) (cmd : string) (dir : option string) : step :=
  Step n None [] (Some cmd) dir.

(** .github/workflows/smoke.yml *)
Definition smoke : workflow :=
  Workflow "smoke"
    [Push ["main"]; PullRequest ["main"] []; Schedule "0 0/1 * * *"]
    [Job "build" "ubuntu-latest"
       [uses_step "check out repo" "actions/checkout@v2" [];
        uses_step "setup python" "actions/setup-python@v2" [("python-version", "3.8")];
        run_step_in "pip install" "pip install -r dev-requirements.txt" None;
        run_step_in "check code format" "black --check ." None;
        run_step_in "check notebook format" "black-nb --clear-output --check ." None]].

(** .github/workflows/cli-docs-how-to-configure-cli.yml *)
Definition cli_docs : workflow :=
  Workflow "cli-docs-how-to-configure-cli"
    [Schedule "0 0/4 * * *";
     PullRequest ["main"; "cli-preview"]
       ["cli/how-to-configure-cli.sh";
        ".github/workflows/cli-docs-how-to-configure-cli.yml"]]
    [Job "build" "ubuntu-latest"
       [uses_step "check out repo" "actions/checkout@v2" [];
        uses_step "azure login" "azure/login@v1" [("creds", "${{secrets.AZ_AE_CREDS}}")];
        run_step_in "install ml cli" "az extension add -n ml -y" None;
        run_step_in "setup workspace" "bash setup.sh" (Some "cli");
        run_step_in "docs installs"
          "sudo apt-get upgrade -y && sudo apt-get install uuid-runtime jq -y" None;
        run_step_in "test doc script" "set -e; bash -x how-to-configure-cli.sh" (Some "cli")]].

Definition is_push (t : trigger) : bool :=
  match t with Push _ => true | _ => false end.

Definition is_schedule (t : trigger) : bool :=
  match t with Schedule _ => true | _ => false end.

Definition all_steps (w : workflow) : list step := flat_map steps (jobs w).

Definition find_step (n : string) (w : workflow) : option step :=
  List.find (fun s => String.eqb n (step_name s)) (all_steps w).

(** The steps of a job that come before the step named [n]. *)
Fixpoint steps_before (n : string) (l : list step) : list step :=
  match l with
  | [] => []
  | s :: l' => if String.eqb n (step_name s) then [] else s :: steps_before n l'
  end.

(** ** A shell for the [run:] lines *)

(** The fragment of bash that the workflows use: simple commands of words
    separated by blanks, joined by [;], newlines or [&&]; comments; the
    builtin [set] with [-e] and [+e]; and [bash] started on a script file.
    The two [run:] lines of the workflows that start a script, and the other
    [run:] lines, are in this fragment.  The scripts themselves are not part
    of the sources at hand: a script of this fragment ([simple_script]
    below) is run by [exec]; what bash does with any other script is left to
    the outside world, like the programs the commands name. *)
Inductive connector : Type := Semi | AndAnd.

Definition command : Type := connector * list string.

Definition newline : string := String (ascii_of_nat 10) EmptyString.

Definition unlines (l : list string) : string :=
  fold_right (fun a b => a ++ newline ++ b) "" l.

Definition push_word (w : string) (argv : list string) : list string :=
  if String.eqb w "" then argv else (argv ++ [w])%list.

Definition emit (conn : connector) (argv : list string) (rest : list command)
  : list command :=
  match argv with
  | [] => rest
  | _ => (conn, argv) :: rest
  end.

Definition is_blank (c : ascii) : bool := Nat.eqb (nat_of_ascii c) 32.
Definition is_separator (c : ascii) : bool :=
  Nat.eqb (nat_of_ascii c) 59 || Nat.eqb (nat_of_ascii c) 10.
Definition is_amp (c : ascii) : bool := Nat.eqb (nat_of_ascii c) 38.
Definition is_hash (c : ascii) : bool := Nat.eqb (nat_of_ascii c) 35.

(** [parse s comment w argv conn]: the commands of [s], where [w] is the word
    and [argv] the command read so far, joined to what came before by
    [conn].  A [#] at the start of a word opens a comment up to the end of
    the line; [comment] tells whether [s] starts inside one. *)
Fixpoint parse (s : string) (comment : bool) (w : string) (argv : list string)
    (conn : connector) : list command :=
  match s with
  | EmptyString => emit conn (push_word w argv) []
  | String c s' =>
      if comment then
        if Nat.eqb (nat_of_ascii c) 10
        then emit conn (push_word w argv) (parse s' false "" [] Semi)
        else parse s' true w argv conn
      else if is_blank c then parse s' false "" (push_word w argv) conn
      else if is_separator c then
        emit conn (push_word w argv) (parse s' false "" [] Semi)
      else if is_hash c && String.eqb w "" then parse s' true w argv conn
      else if is_amp c then
        match s' with
        | String c' s'' =>
            if is_amp c'
            then emit conn (push_word w argv) (parse s'' false "" [] AndAnd)
            else parse s' false (w ++ String c EmptyString) argv conn
        | EmptyString => emit conn (push_word (w ++ String c EmptyString) argv) []
        end
      else parse s' false (w ++ String c EmptyString) argv conn
  end.

Definition parse_commands (s : string) : list command := parse s false "" [] Semi.

(** The files of the checked-out repository: path to contents. *)
Abbreviation files := (gmap string string).

Definition is_set (flag : string) (argv : list string) : bool :=
  match argv with
  | [a; b] => String.eqb a "set" && String.eqb b flag
  | _ => false
  end.

(** [name args]: the command [name] with its arguments. *)
Definition invokes (name : string) (argv : list string) : option (list string) :=
  match argv with
  | a :: args => if String.eqb a name then Some args else None
  | [] => None
  end.

Definition next_is_and (rest : list command) : bool :=
  match rest with
  | (AndAnd, _) :: _ => true
  | _ => false
  end.

Definition has_errexit_flag (opts : list string) : bool :=
  existsb (String.eqb "-e") opts.

Definition path_in (dir : option string) (file : string) : string :=
  match dir with
  | Some d => d ++ "/" ++ file
  | None => file
  end.

(** The commands of a script, in order. *)
Definition script_commands (text : string) : list (list string) :=
  map snd (parse_commands text).

(** *** The scripts of the fragment *)

(** A character of a plain word: a letter, a digit, or one of
    [- _ . / : , @ % + =].  Quotes, [$], the backslash, tabs, redirections,
    pipes, parentheses, braces, brackets, [!], [~], [*] and [?] are not
    among them, so a plain word stands for itself. *)
Definition word_char (c : ascii) : bool :=
  let n := nat_of_ascii c in
  ((48 <=? n) && (n <=? 57) || (65 <=? n) && (n <=? 90) || (97 <=? n) && (n <=? 122)
   || existsb (Nat.eqb n) [45; 95; 46; 47; 58; 44; 64; 37; 43; 61])%nat.

Fixpoint all_chars (p : ascii -> bool) (s : string) : bool :=
  match s with
  | EmptyString => true
  | String c s' => p c && all_chars p s'
  end.

(** The names bash does not look up as a program: its reserved words and its
    builtins. *)
Definition shell_words : list string :=
  ["!"; "case"; "coproc"; "do"; "done"; "elif"; "else"; "esac"; "fi"; "for";
   "function"; "if"; "in"; "select"; "then"; "time"; "until"; "while";
   "{"; "}"; "[["; "]]";
   "."; ":"; "["; "alias"; "bg"; "bind"; "break"; "builtin"; "caller"; "cd";
   "command"; "compgen"; "complete"; "compopt"; "continue"; "declare"; "dirs";
   "disown"; "echo"; "enable"; "eval"; "exec"; "exit"; "export"; "false"; "fc";
   "fg"; "getopts"; "hash"; "help"; "history"; "jobs"; "kill"; "let"; "local";
   "logout"; "mapfile"; "popd"; "printf"; "pushd"; "pwd"; "read"; "readarray";
   "readonly"; "return"; "set"; "shift"; "shopt"; "source"; "suspend"; "test";
   "times"; "trap"; "true"; "type"; "typeset"; "ulimit"; "umask"; "unalias";
   "unset"; "wait"].

Definition is_equals (c : ascii) : bool := Nat.eqb (nat_of_ascii c) 61.

(** A command of the fragment: [set -e], [set +e], or a program named by a
    plain word (no reserved word, no builtin, no assignment) with plain
    words as arguments. *)
Definition simple_command (argv : list string) : bool :=
  is_set "-e" argv || is_set "+e" argv
  || match argv with
     | [] => false
     | name :: _ =>
         forallb (all_chars word_char) argv
         && negb (existsb (String.eqb name) shell_words)
         && all_chars (fun c => negb (is_equals c)) name
     end.

(** Where the reader stands in a line: before any command, after a command,
    after [;], after [&&]. *)
Inductive position : Type := LineStart | AfterCommand | AfterSemi | AfterAnd.

Definition after_command (p : position) : bool :=
  match p with AfterCommand => true | _ => false end.

Definition after_and (p : position) : bool :=
  match p with AfterAnd => true | _ => false end.

(** [well_joined s comment in_word pos]: the text is made of plain words,
    spaces, newlines, comments, [;] and [&&] only; every [;] and [&&]
    follows a command; and every [&&] is followed by a command on the same
    line. *)
Fixpoint well_joined (s : string) (comment in_word : bool) (pos : position) : bool :=
  match s with
  | EmptyString => negb (after_and pos)
  | String c s' =>
      if comment then
        if Nat.eqb (nat_of_ascii c) 10
        then well_joined s' false false LineStart
        else well_joined s' true false pos
      else if is_blank c then well_joined s' false false pos
      else if Nat.eqb (nat_of_ascii c) 10
      then negb (after_and pos) && well_joined s' false false LineStart
      else if Nat.eqb (nat_of_ascii c) 59
      then after_command pos && well_joined s' false false AfterSemi
      else if is_hash c
      then negb in_word && negb (after_and pos) && well_joined s' true false pos
      else if is_amp c then
        match s' with
        | String c' s'' =>
            is_amp c' && after_command pos && well_joined s'' false false AfterAnd
        | EmptyString => false
        end
      else word_char c && well_joined s' false true AfterCommand
  end.

(** A script of the fragment. *)
Definition simple_script (text : string) : bool :=
  well_joined text false false LineStart
  && forallb simple_command (script_commands text).

(** The options of [bash] that are covered: [-e] and [-x]. *)
Definition known_options (opts : list string) : bool :=
  forallb (fun o => String.eqb o "-e" || String.eqb o "-x") opts.

Section Shell.

(** What a command that is not a builtin does: its exit status and the files
    it leaves. *)
Variable external : list string -> files -> Z * files.

(** [exec sub errexit last cmds fs]: run [cmds] in order.  A command after
    [&&] is skipped when the one before failed.  With errexit the shell
    stops at a failing command, unless that command is followed by [&&]. *)
Fixpoint exec (sub : list string -> files -> Z * files) (errexit : bool) (last : Z)
    (cmds : list command) (fs : files) : Z * files :=
  match cmds with
  | [] => (last, fs)
  | (conn, argv) :: rest =>
      match conn, Z.eqb last 0 with
      | AndAnd, false => exec sub errexit last rest fs
      | _, _ =>
          if is_set "-e" argv then exec sub true 0 rest fs
          else if is_set "+e" argv then exec sub false 0 rest fs
          else
            let '(st, fs') := sub argv fs in
            if errexit && negb (Z.eqb st 0) && negb (next_is_and rest)
            then (st, fs')
            else exec sub errexit st rest fs'
      end
  end.

(** [bash opts file]: a new shell reads the script; it has errexit only if
    started with [-e] (the option of the calling shell is not inherited), and
    its exit status is that of the last command it ran.  A missing script
    gives 127.  A script that is not of the fragment, and a start of [bash]
    with other options or without a file, are left to [external]. *)
Definition bash_script (dir : option string) (args : list string) (fs : files)
  : Z * files :=
  match rev args with
  | [] => external ("bash" :: args) fs
  | file :: opts =>
      match fs !! path_in dir file with
      | Some text =>
          if simple_script text && known_options opts
          then exec external (has_errexit_flag opts) 0 (parse_commands text) fs
          else external ("bash" :: args) fs
      | None => (127, fs)
      end
  end.

Definition top_command (dir : option string) (argv : list string) (fs : files)
  : Z * files :=
  match invokes "bash" argv with
  | Some args => bash_script dir args fs
  | None => external argv fs
  end.

(** A [run:] step: the runner starts [bash -e] on the line, in the working
    directory of the step.  A step without [run:] is an action and is left
    to [external]. *)
Definition run_step (s : step) (fs : files) : Z * files :=
  match run_line s with
  | Some line =>
      exec (top_command (working_directory s)) true 0 (parse_commands line) fs
  | None =>
      match uses s with
      | Some a => external ["uses"; a] fs
      | None => (0, fs)
      end
  end.

End Shell.


(** The script at [path], if it is in the checkout, is a script of the
    fragment. *)
Definition script_covered (fs : files) (path : string) : bool :=
  match fs !! path with
  | Some text => simple_script text
  | None => true
  end.

(** The walkthrough step and its script. *)
Definition walkthrough_step : step :=
  run_step_in "test doc script" "set -e; bash -x how-to-configure-cli.sh" (Some "cli").

Definition walkthrough_path : string := "cli/how-to-configure-cli.sh".

Definition setup_path : string := "cli/setup.sh".

(** Every external command exits zero and leaves the files alone. *)
Definition all_succeed : list string -> files -> Z * files := fun _ fs => (0, fs).

(** Every external command exits zero but [az login]. *)
Definition login_fails : list string -> files -> Z * files :=
  fun argv fs =>
    match invokes "az" argv with
    | Some (sub :: _) => (if String.eqb sub "login" then 1 else 0, fs)
    | _ => (0, fs)
    end.

(** A script whose first command fails and whose last succeeds. *)
Definition failing_script : string := unlines ["az login"; "az ml -h"].

Definition failing_checkout : files := {[ walkthrough_path := failing_script ]}.

(** Scripts of the walkthrough kind. *)
Definition sample_script : string :=
  unlines ["# <az_ml_install>"; "az extension add -n ml"; "# </az_ml_install>";
           "az ml -h"].

Definition sample_setup : string :=
  unlines ["#!/bin/bash";
           "az group create -n examples -l eastus && az configure --defaults group=examples"].

Definition sample_checkout : files :=
  {[ walkthrough_path := sample_script; setup_path := sample_setup ]}.

(** ** The format checkers *)

Fixpoint ends_with (suffix s : string) : bool :=
  String.eqb suffix s ||
  match s with
  | EmptyString => false
  | String _ s' => ends_with suffix s'
  end.

Section Formatters.

(** What black makes of a Python source and black-nb of a notebook (with or
    without clearing the outputs): the formatted text, or [None] when the
    tool cannot parse the file.  Which files below the current directory a
    tool looks at depends on its version and configuration (include and
    exclude patterns, ignored files): [selects_py] for black, [selects_nb]
    for black-nb. *)
Variable format_py : string -> option string.
Variable format_nb : bool -> string -> option string.
Variable selects_py : string -> bool.
Variable selects_nb : string -> bool.

(** Some file the tool looks at cannot be parsed. *)
Definition unparsable (selects : string -> bool) (f : string -> option string)
    (fs : files) : bool :=
  existsb (fun kv => selects (fst kv)
                     && match f (snd kv) with None => true | Some _ => false end)
          (map_to_list fs).

(** Some file the tool looks at would be rewritten. *)
Definition would_change (selects : string -> bool) (f : string -> option string)
    (fs : files) : bool :=
  existsb (fun kv => selects (fst kv)
                     && match f (snd kv) with
                        | Some text => negb (String.eqb text (snd kv))
                        | None => false
                        end)
          (map_to_list fs).

(** Every file the tool looks at is parsed and is already as the tool would
    write it. *)
Definition conforms (selects : string -> bool) (f : string -> option string)
    (fs : files) : bool :=
  negb (unparsable selects f fs) && negb (would_change selects f fs).

(** The files after the tool has rewritten them: a file that cannot be
    parsed is left as it is. *)
Definition reformat (selects : string -> bool) (f : string -> option string)
    (fs : files) : files :=
  map_imap (fun path text =>
              Some (if selects path
                    then match f text with Some text' => text' | None => text end
                    else text)) fs.

(** A formatter run on the current directory.  It exits 123 when some file
    could not be parsed; otherwise, with [--check], 1 when some file would be
    rewritten; otherwise 0.  With [--check] it writes nothing; without, it
    rewrites the files. *)
Definition formatter (selects : string -> bool) (f : string -> option string)
    (args : list string) (fs : files) : Z * files :=
  let check := existsb (String.eqb "--check") args in
  (if unparsable selects f fs then 123
   else if check && would_change selects f fs then 1
   else 0,
   if check then fs else reformat selects f fs).

Definition black (args : list string) (fs : files) : Z * files :=
  formatter selects_py format_py args fs.

Definition black_nb (args : list string) (fs : files) : Z * files :=
  formatter selects_nb
            (format_nb (existsb (String.eqb "--clear-output") args)) args fs.

(** The commands of the lint steps; any other command is [other]. *)
Definition lint_tools (other : list string -> files -> Z * files)
    (argv : list string) (fs : files) : Z * files :=
  match invokes "black" argv, invokes "black-nb" argv with
  | Some args, _ => black args fs
  | None, Some args => black_nb args fs
  | None, None => other argv fs
  end.

End Formatters.

Definition lint_steps : list step :=
  List.filter (fun s => String.eqb (step_name s) "check code format"
                        || String.eqb (step_name s) "check notebook format")
              (all_steps smoke).

(** A checkout with a source that black would rewrite and one that it cannot
    parse. *)
Definition untidy_checkout : files :=
  {[ "setup.py" := "x=1"; "broken.py" := "x="; "notebook.ipynb" := "{}" ]}.

Definition tidy (s : string) : option string :=
  if String.eqb s "x=1" then Some "x = 1"
  else if String.eqb s "x=" then None
  else Some s.

(** ** Further properties of the notebooks: definitions *)

(** Some call of the trace satisfies [p]. *)
Definition issued (p : call -> bool) (tr : trace) : bool := existsb p (calls tr).

(** The trace from the first call of [f] on, that call left out. *)
Fixpoint entries_after (f : string) (tr : trace) : trace :=
  match tr with
  | [] => []
  | x :: tr' => if is_call f (fst x) then tr' else entries_after f tr'
  end.

(** The trace up to the first call of [f], that call left out. *)
Fixpoint entries_before (f : string) (tr : trace) : trace :=
  match tr with
  | [] => []
  | x :: tr' => if is_call f (fst x) then [] else x :: entries_before f tr'
  end.

(** The calls made while the run is active, with their outcomes. *)
Definition run_entries (tr : trace) : trace :=
  entries_before "mlflow.end_run" (entries_after "mlflow.start_run" tr).

Definition raised_in (tr : trace) : bool :=
  existsb (fun x => negb (returned (snd x))) tr.

(** The tracking of the notebook is set up and a run is started: the
    tracking URI is the one the workspace gives, and the experiment is
    chosen, before [mlflow.start_run]. *)
Definition tracking_configured (tr : trace) : Prop :=
  exists ws uri o1 o2 o3,
    [ (Call "Workspace.from_config" [] [], Returned ws);
      (Method ws "get_mlflow_tracking_uri" [] [], Returned uri);
      (Call "mlflow.set_tracking_uri" [uri] [], Returned o1);
      (Call "mlflow.set_experiment" [VStr "lightgbm-iris-local-example"] [], Returned o2);
      (Call "mlflow.start_run" [] [], o3) ]
    `sublist_of` tr.

(** A world in which the training fails. *)
Definition failing_train : oracle nat :=
  fun c n =>
    if is_call "lgb.train" c
    then (Raised (PyExn "LightGBMError" "training failed"), n)
    else nominal c n.

(** ** Further properties of the deployment notebook: definitions *)

Definition prebuilt_image : string :=
  "mcr.microsoft.com/azureml/pytorch-1.6-ubuntu18.04-py37-cpu-inference:latest".

(** The environment that is deployed: docker enabled on the prebuilt
    inference image, dependencies managed by the user, registered in the
    workspace, and then given the variable that names the requirements file
    written before; the inference configuration is built from this
    environment, and it is what [Model.deploy] receives. *)
Definition environment_prepared (tr : trace) : Prop :=
  exists ws model myenv body d1 d2 p inference_config aciconfig
         o0 o1 o2 o3 o4 o5 o6 o7,
    [ (WriteFile "requirements.txt" body, Returned o0);
      (Call "Environment" [] [("name", VStr "pytorch-deploy-prebuilt-example")],
       Returned myenv);
      (GetAttr myenv "docker", Returned d1);
      (SetAttr d1 "enabled" (VBool true), Returned o1);
      (GetAttr myenv "docker", Returned d2);
      (SetAttr d2 "base_image" (VStr prebuilt_image), Returned o2);
      (GetAttr myenv "python", Returned p);
      (SetAttr p "user_managed_dependencies" (VBool true), Returned o3);
      (Method myenv "register" [] [("workspace", ws)], Returned o4);
      (SetAttr myenv "environment_variables"
         (VDict [("AZUREML_EXTRA_REQUIREMENTS_TXT", VStr "requirements.txt")]),
       Returned o5);
      (Call "InferenceConfig" []
         [("entry_script", VStr "pytorch_score.py"); ("environment", myenv)],
       Returned inference_config);
      (SetAttr inference_config "source_directory" (VStr "./"), Returned o6);
      (Call "Model.deploy" []
         [("workspace", ws);
          ("name", VStr "deploy-aci-pytorch");
          ("models", VList [model]);
          ("inference_config", inference_config);
          ("deployment_config", aciconfig)], o7) ]
    `sublist_of` tr.

(** The life of the web service: deployed, waited for, its logs and scoring
    URI read, invoked, and only then deleted. *)
Definition service_lifecycle (tr : trace) : Prop :=
  exists kw service body o1 logs uri result o2,
    [ (Call "Model.deploy" [] kw, Returned service);
      (Method service "wait_for_deployment" [VBool true] [], Returned o1);
      (Method service "get_logs" [] [], Returned logs);
      (GetAttr service "scoring_uri", Returned uri);
      (Method service "run" [] [("input_data", body)], Returned result);
      (Method service "delete" [] [], o2) ]
    `sublist_of` tr.

(** What is sent to the service: the test image, resized to 256, cropped to
    224 at its centre, turned into a tensor and normalised, as floats, with a
    batch dimension added, as a nested list under the key "data" of a JSON
    document. *)
Definition scoring_request (tr : trace) : Prop :=
  exists t1 t2 t3 t4 data_transforms image a b c d input_data l body service o,
    [ (Call "transforms.Resize" [VInt 256] [], Returned t1);
      (Call "transforms.CenterCrop" [VInt 224] [], Returned t2);
      (Call "transforms.ToTensor" [] [], Returned t3);
      (Call "transforms.Normalize"
         [VList [VFloat 485 (-3); VFloat 456 (-3); VFloat 406 (-3)];
          VList [VFloat 229 (-3); VFloat 224 (-3); VFloat 225 (-3)]] [], Returned t4);
      (Call "transforms.Compose" [VList [t1; t2; t3; t4]] [], Returned data_transforms);
      (Call "Image.open" [VStr "test_img.jpg"] [], Returned image);
      (Method data_transforms "__call__" [image] [], Returned a);
      (Method a "float" [] [], Returned b);
      (Call "torch.tensor" [b] [], Returned c);
      (Method c "unsqueeze" [VInt 0] [], Returned d);
      (Method d "numpy" [] [], Returned input_data);
      (Method input_data "tolist" [] [], Returned l);
      (Call "json.dumps" [VDict [("data", l)]] [], Returned body);
      (Method service "run" [] [("input_data", body)], o) ]
    `sublist_of` tr.

(** A world in which the invocation of the service fails. *)
Definition failing_invoke : oracle nat :=
  fun c n =>
    if is_method "run" c
    then (Raised (PyExn "WebserviceException" "Received bad response from service"), n)
    else nominal c n.

(** ** Further properties of the data-exploration notebook: definitions *)

(** A program all of whose calls satisfy [P], whatever the oracle answers. *)
Definition always {W R : Type} (h : oracle W) (P : call -> bool) (p : Prog R) : Prop :=
  forall w, forallb P (calls (trace_of (run h p w))) = true.

Definition has_key (k : string) (items : list (string * value)) : bool :=
  existsb (fun kv => String.eqb k (fst kv)) items.

(** The call is given an account key, as a keyword or inside its
    [storage_options]. *)
Definition passes_account_key (kw : kwargs) : bool :=
  has_key "account_key" kw
  || match dict_get "storage_options" kw with
     | Some (VDict items) => has_key "account_key" items
     | _ => false
     end.

(** The only call that may be given an account key is the constructor of the
    filesystem. *)
Definition key_only_to_filesystem (c : call) : bool :=
  match c with
  | Call f _ kw => is_call "AzureBlobFileSystem" c || negb (passes_account_key kw)
  | Method _ _ _ kw => negb (passes_account_key kw)
  | _ => true
  end.

(** The object [k] occurs in a value. *)
Fixpoint holds (k : nat) (v : value) : bool :=
  match v with
  | VObj i => Nat.eqb i k
  | VList l | VTuple l | VArray l => existsb (holds k) l
  | VDict items => existsb (fun kv => holds k (snd kv)) items
  | VFrame _ rows => existsb (fun r => existsb (holds k) (snd r)) rows
  | VSeries cells => existsb (fun c => holds k (snd c)) cells
  | _ => false
  end.

(** The values a call hands to the library. *)
Definition call_values (c : call) : list value :=
  match c with
  | Call _ args kw => (args ++ map snd kw)%list
  | Method recv _ args kw => recv :: (args ++ map snd kw)%list
  | GetAttr recv _ => [recv]
  | SetAttr recv _ v => [recv; v]
  | BinOp _ a b => [a; b]
  | Display v => [v]
  | Import _ | Shell _ | WriteFile _ _ | Magic _ => []
  end.

Definition mentions (k : nat) (c : call) : bool := existsb (holds k) (call_values c).

(** Reading the account key of a datastore. *)
Definition reads_account_key (c : call) : bool :=
  match c with
  | GetAttr _ a => String.eqb a "account_key"
  | _ => false
  end.

(** The constructor of the filesystem, with nothing but its [account_key]
    holding the object [k]. *)
Definition filesystem_with_key (k : nat) (c : call) : bool :=
  match c with
  | Call f [] [(n1, an); (n2, _)] =>
      String.eqb f "AzureBlobFileSystem" && String.eqb n1 "account_name"
      && String.eqb n2 "account_key" && negb (holds k an)
  | _ => false
  end.

(** The object [k] reaches a call only as the [account_key] of the
    filesystem constructor. *)
Definition key_confined (k : nat) (c : call) : bool :=
  implb (mentions k c) (filesystem_with_key k c).

(** A reader of data is given one location and, besides it, nothing or the
    account name alone. *)
Definition is_reader (f : string) : bool :=
  String.eqb f "pd.read_csv" || String.eqb f "dd.read_parquet".

Definition reader_options (c : call) : bool :=
  match c with
  | Call f args kw =>
      implb (is_reader f)
        (Nat.eqb (length args) 1
         && match kw with
            | [] => true
            | [(n, VDict [(m, VStr _)])] =>
                String.eqb n "storage_options" && String.eqb m "account_name"
            | _ => false
            end)
  | _ => true
  end.

(** The libraries hand out the object [k] only as the [account_key] of a
    datastore: no other answer holds it. *)
Definition key_only_from_datastore {W : Type} (h : oracle W) (k : nat) : Prop :=
  forall c w v w', h c w = (Returned v, w') -> holds k v = true -> reads_account_key c = true.

(** [confined h k Post p]: whatever [h] answers, the object [k] reaches the
    calls of [p] only as the account key of the filesystem constructor, and
    what [p] returns satisfies [Post]. *)
Definition confined {W R : Type} (h : oracle W) (k : nat) (Post : R -> Prop) (p : Prog R)
  : Prop :=
  forall w, forallb (key_confined k) (calls (trace_of (run h p w))) = true /\
            forall r, outcome_of (run h p w) = Returned r -> Post r.

(** A world in which the account key is the object 0 and every other answer
    is another object, a list of paths or a string. *)
Definition keyed : oracle nat :=
  fun c n =>
    if reads_account_key c then (Returned (VObj 0), n)
    else if is_method "glob" c then
      (Returned (VList [VStr "nyctlc/green/puYear=2016/puMonth=12/part-00000.snappy.parquet";
                        VStr "nyctlc/green/puYear=2016/puMonth=12/part-00001.snappy.parquet"]),
       n)
    else if is_call "format" c then (Returned (VStr "object"), n)
    else (Returned (VObj (S n)), S n).

Definition glob_pattern : string := "nyctlc/green/puYear=2016/puMonth=12/*.parquet".

Definition az_uri (path : string) : value := VStr ("az://" ++ path).

(** ** Further properties of the workflows: definitions *)

(** What can start a workflow: a push to a branch, a pull request against a
    base branch that changes some files, the tick of a cron schedule. *)
Inductive event : Type :=
| PushTo (branch : string)
| PullRequestTo (base : string) (changed : list string)
| CronTick (cron : string).

(** The filters of the two workflows are plain names, without wildcards: a
    branch or a path matches a filter when it is equal to one of its
    entries; a filter that is left out matches everything. *)
Definition filter_matches (entries : list string) (x : string) : bool :=
  match entries with
  | [] => true
  | _ => existsb (String.eqb x) entries
  end.

Definition trigger_matches (t : trigger) (e : event) : bool :=
  match t, e with
  | Push branches, PushTo b => filter_matches branches b
  | PullRequest branches paths, PullRequestTo base changed =>
      filter_matches branches base
      && match paths with
         | [] => true
         | _ => existsb (filter_matches paths) changed
         end
  | Schedule c, CronTick c' => String.eqb c c'
  | _, _ => false
  end.

Definition triggered (w : workflow) (e : event) : bool :=
  existsb (fun t => trigger_matches t e) (on w).

Definition step_named (n : string) (w : workflow) : step :=
  match find_step n w with
  | Some s => s
  | None => Step n None [] None None
  end.

Definition docs_installs_step : step := step_named "docs installs" cli_docs.
Definition setup_workspace_step : step := step_named "setup workspace" cli_docs.
Definition code_format_step : step := step_named "check code format" smoke.
Definition notebook_format_step : step := step_named "check notebook format" smoke.

(** ** Further properties of [preprocess_data]: definitions *)

(** [enc.inverse_transform] on one code: the class at that position. *)
Definition decode (classes : list value) (code : value) : option value :=
  match code with
  | VInt i => if i <? 0 then None else classes !! Z.to_nat i
  | _ => None
  end.


(** A dataframe without a "species" column. *)
Definition unlabelled : value :=
  VFrame ["sepal_length"; "sepal_width"] [(0, [VFloat 51 (-1); VFloat 35 (-1)])].
(** ** Generic facts about [run] *)

Lemma run_bind {W A B : Type} (h : oracle W) (p : Prog A) (f : A -> Prog B) (w : W) :
  run h (bind p f) w =
    match run h p w with
    | (Returned a, tr, w') =>
        let '(r, tr', w'') := run h (f a) w' in (r, (tr ++ tr')%list, w'')
    | (Raised e, tr, w') => (Raised e, tr, w')
    end.
Proof.
  revert B f w.
  induction p as [A a | A e | A c k IH | A body _ handler _ k IH]; intros B f w; simpl.
  - destruct (run h (f a) w) as [[r tr] w']. reflexivity.
  - reflexivity.
  - destruct (h c w) as [[v | e] w']; [| reflexivity].
    rewrite IH.
    destruct (run h (k v) w') as [[[a | e] tr] w'']; [| reflexivity].
    destruct (run h (f a) w'') as [[r tr'] w3]. reflexivity.
  - destruct (run h body w) as [[[v | e] tr] w'].
    + rewrite IH.
      destruct (run h (k v) w') as [[[a | e] tr2] w2]; [| reflexivity].
      destruct (run h (f a) w2) as [[r tr'] w3]. rewrite app_assoc. reflexivity.
    + destruct (run h (handler e) w') as [[[v | e1] tr1] w1]; [| reflexivity].
      rewrite IH.
      destruct (run h (k v) w1) as [[[a | e2] tr2] w2]; [| reflexivity].
      destruct (run h (f a) w2) as [[r tr'] w3]. rewrite <- !app_assoc. reflexivity.
Qed.

Lemma wp_sound {W R : Type} (h : oracle W) (p : Prog R) Q past w :
  wp h p Q past w ->
  Q (outcome_of (run h p w)) (rev past ++ trace_of (run h p w))%list (world_of (run h p w)).
Proof.
  revert Q past w.
  induction p as [R a | R e | R c k IH | R body _ handler _ k _]; intros Q past w; simpl.
  - rewrite app_nil_r. auto.
  - rewrite app_nil_r. auto.
  - intros H. destruct (h c w) as [o w'] eqn:E. specialize (H o w' eq_refl).
    destruct o as [v | e].
    + apply IH in H. destruct (run h (k v) w') as [[r tr] w'']. cbn in *.
      rewrite <- app_assoc in H. exact H.
    + cbn in *. exact H.
  - auto.
Qed.

Lemma wp_run {W R : Type} (h : oracle W) (p : Prog R) Q w :
  wp h p Q [] w ->
  Q (outcome_of (run h p w)) (trace_of (run h p w)) (world_of (run h p w)).
Proof. intros H. apply wp_sound in H. exact H. Qed.

(** One call of the program: the oracle's answer is named, the branch in
    which it raised is left to [tac]. *)
Lemma wp_do {W R : Type} (h : oracle W) c (k : value -> Prog R) Q past w :
  (forall v w', h c w = (Returned v, w') ->
     wp h (k v) Q ((c, Returned v) :: past) w') ->
  (forall e w', h c w = (Raised e, w') ->
     Q (Raised e) (rev ((c, Raised e) :: past)) w') ->
  wp h (Do c k) Q past w.
Proof. intros Hv He. simpl. intros [v | e] w' E; auto. Qed.

Lemma wp_ret {W R : Type} (h : oracle W) (r : R) (Q : result R -> trace -> W -> Prop) past w :
  Q (Returned r) (rev past) w -> wp h (Ret r) Q past w.
Proof. auto. Qed.

Lemma wp_raise {W R : Type} (h : oracle W) e (Q : result R -> trace -> W -> Prop) past w :
  Q (Raised e) (rev past) w -> wp h (Raise e) Q past w.
Proof. auto. Qed.

(** One call of the program: the oracle's answer is named, the branch in
    which it raised is left to [tac]. *)
Ltac step tac :=
  lazymatch goal with
  | |- wp _ (Do _ _) _ _ _ =>
      let H := fresh "Hcall" in
      apply wp_do; [intros ?v ?w H; cbv beta | intros ?e ?w H; tac]
  end.

(** [a, b, c, d = v] inside a [wp] goal: the one shape that unpacks is kept,
    the shapes on which Python raises are left to [tac]. *)
Ltac unpack4_cases v tac :=
  destruct v as [ | ? | ? | ? ? | ? | [| ? [| ? [| ? [| ? [| ? ?]]]]]
                | [| ? [| ? [| ? [| ? [| ? ?]]]]] | ? | ? ? | ? | ? | ? ];
  cbn [bind unpack4]; try (apply wp_raise; tac).


Lemma unpack4_pure (s : value) :
  (exists a b c d, unpack4 s = Ret (a, b, c, d)) \/ (exists e, unpack4 s = Raise e).
Proof.
  destruct s as [ | ? | ? | ? ? | ? | [| ? [| ? [| ? [| ? [| ? ?]]]]]
                | [| ? [| ? [| ? [| ? [| ? ?]]]]] | ? | ? ? | ? | ? | ? ];
    cbn; eauto 6.
Qed.

(** A list is a sublist of a longer one: take the first match of each
    element. *)
Ltac find_sublist :=
  repeat first [ apply sublist_nil_l | apply sublist_skip | apply sublist_cons ].

(** ** Lists: masks, positions and permutations *)

Lemma select_map_filter {A : Type} (f g : A -> bool) (l : list A) :
  (forall x, f x = g x) -> select (map f l) l = List.filter g l.
Proof.
  intros E. induction l as [| x l IH]; cbn; [reflexivity |].
  rewrite E, IH. reflexivity.
Qed.

Lemma count_true_existsb {A : Type} (f : A -> bool) (l : list A) :
  count_true (map f l) <> 0%nat -> existsb f l = true.
Proof.
  unfold count_true. induction l as [| x l IH]; cbn; [congruence |].
  destruct (f x); cbn; auto.
Qed.

Lemma strings_of_length (l : list value) (ss : list string) :
  strings_of l = Some ss -> length ss = length l.
Proof.
  revert ss. induction l as [| v l IH]; intros ss; cbn.
  - intros [= <-]. reflexivity.
  - destruct v; try discriminate.
    destruct (strings_of l) as [ss' |]; [| discriminate].
    intros [= <-]. cbn. f_equal. auto.
Qed.

Lemma ints_of_length (l : list value) (ns : list Z) :
  ints_of l = Some ns -> length ns = length l.
Proof.
  revert ns. induction l as [| v l IH]; intros ns; cbn.
  - intros [= <-]. reflexivity.
  - destruct v; try discriminate.
    destruct (ints_of l) as [ns' |]; [| discriminate].
    intros [= <-]. cbn. f_equal. auto.
Qed.

(** Looking up every position of a list, in order, gives the list back. *)
Lemma omap_lookup_seq {A : Type} (pre l : list A) :
  omap (fun i => (pre ++ l)%list !! i) (seq (length pre) (length l)) = l.
Proof.
  revert pre. induction l as [| x l IH]; intros pre; cbn; [reflexivity |].
  rewrite lookup_app_r by lia. rewrite Nat.sub_diag. cbn. f_equal.
  specialize (IH (pre ++ [x])%list).
  rewrite length_app, <- app_assoc in IH. cbn in IH.
  rewrite Nat.add_1_r in IH. exact IH.
Qed.

Lemma omap_lookup_permutation {A : Type} (l : list A) (idx : list nat) :
  Permutation idx (seq 0 (length l)) ->
  Permutation (omap (fun i => l !! i) idx) l.
Proof.
  intros H. rewrite H. pose proof (omap_lookup_seq [] l) as E. cbn in E.
  rewrite E. reflexivity.
Qed.

Lemma omap_lookup_length {A : Type} (l : list A) (idx : list nat) :
  Forall (fun i => (i < length l)%nat) idx ->
  length (omap (fun i => l !! i) idx) = length idx.
Proof.
  induction 1 as [| i idx Hi _ IH]; cbn; [reflexivity |].
  destruct (lookup_lt_is_Some_2 l i Hi) as [x Hx]. rewrite Hx. cbn. f_equal. exact IH.
Qed.

Lemma permutation_below (p : list nat) (n : nat) :
  Permutation p (seq 0 n) -> Forall (fun i => (i < n)%nat) p.
Proof.
  intros H. apply List.Forall_forall. intros i Hi.
  apply (Permutation_in _ H) in Hi. apply in_seq in Hi. lia.
Qed.

(** A fifth rounded up, as [train_test_split] computes it from 0.2. *)
Lemma ceil_fifth (n : Z) : 0 <= n -> ceil_div (2 * n) (10 ^ (- (-1))) = ceil_div n 5.
Proof.
  intros H. unfold ceil_div. change (10 ^ (- (-1))) with 10.
  pose proof (Z.div_mod (n + 5 - 1) 5 ltac:(lia)) as E.
  pose proof (Z.mod_pos_bound (n + 5 - 1) 5 ltac:(lia)) as B.
  symmetry. apply Z.div_unique with (r := 2 * ((n + 5 - 1) mod 5) + 1); lia.
Qed.

Lemma ceil_fifth_below (n : nat) :
  (2 <= n)%nat -> (Z.to_nat (ceil_div (Z.of_nat n) 5) < n)%nat.
Proof.
  intros H. unfold ceil_div.
  pose proof (Z.div_mod (Z.of_nat n + 5 - 1) 5 ltac:(lia)) as E.
  pose proof (Z.mod_pos_bound (Z.of_nat n + 5 - 1) 5 ltac:(lia)) as B.
  assert (0 <= (Z.of_nat n + 5 - 1) / 5) by (apply Z.div_pos; lia).
  lia.
Qed.

(** ** The library answers on a dataframe *)

Lemma numbers_of_eq (l vs : list value) : numbers_of l = Some vs -> vs = l.
Proof.
  revert vs. induction l as [| v l IH]; intros vs; cbn.
  - intros [= <-]. reflexivity.
  - destruct (number_of v); [| discriminate].
    destruct (numbers_of l) as [vs' |]; [| discriminate].
    intros [= <-]. f_equal. auto.
Qed.

Lemma present_all (vals : list value) :
  existsb is_missing vals = false -> present vals = vals.
Proof.
  unfold present. induction vals as [| v vals IH]; cbn; [reflexivity |].
  intros H. apply orb_false_elim in H as [Hv Hvals]. rewrite Hv. cbn.
  f_equal. apply IH. exact Hvals.
Qed.

Lemma encode_with_missing_length (vals classes codes : list value) :
  encode_with_missing vals = Returned (classes, codes) -> length codes = length vals.
Proof.
  unfold encode_with_missing.
  destruct (strings_of (present vals)); [intros [= <- <-]; apply length_map |].
  destruct (numbers_of (present vals)); [intros [= <- <-]; apply length_map | discriminate].
Qed.

Lemma label_encode_length (y : value) (vals classes codes : list value) :
  column_or_1d y = Returned vals ->
  label_encode y = Returned (classes, codes) ->
  length codes = length vals.
Proof.
  unfold label_encode. intros ->.
  destruct (strings_of vals) as [ss |] eqn:Es.
  - intros [= <- <-]. rewrite length_map. eapply strings_of_length; eauto.
  - destruct (ints_of vals) as [ns |] eqn:En.
    + intros [= <- <-]. rewrite length_map. eapply ints_of_length; eauto.
    + destruct (numbers_of vals) as [xs |] eqn:Ex.
      * intros [= <- <-]. rewrite length_map. rewrite (numbers_of_eq _ _ Ex). reflexivity.
      * destruct (existsb is_missing vals); [| discriminate].
        apply encode_with_missing_length.
Qed.

Lemma label_encode_accepts (y : value) (vals : list value) :
  column_or_1d y = Returned vals ->
  match strings_of vals with Some _ => true | None => false end
  || match ints_of vals with Some _ => true | None => false end = true ->
  exists classes codes, label_encode y = Returned (classes, codes).
Proof.
  unfold label_encode. intros -> H.
  destruct (strings_of vals) as [ss |]; [eauto |].
  destruct (ints_of vals) as [ns |]; [eauto | discriminate].
Qed.

Lemma label_encode_accepts_labels (y : value) (vals : list value) :
  column_or_1d y = Returned vals ->
  match strings_of (present vals) with Some _ => true | None => false end
  || match numbers_of (present vals) with Some _ => true | None => false end = true ->
  exists classes codes, label_encode y = Returned (classes, codes).
Proof.
  unfold label_encode. intros -> H.
  destruct (strings_of vals) as [ss |] eqn:Es; [eauto |].
  destruct (ints_of vals) as [ns |]; [eauto |].
  destruct (numbers_of vals) as [xs |] eqn:Ex; [eauto |].
  destruct (existsb is_missing vals) eqn:Em.
  - unfold encode_with_missing.
    destruct (strings_of (present vals)); [eauto |].
    destruct (numbers_of (present vals)); [eauto | discriminate H].
  - rewrite (present_all vals Em), Es, Ex in H. discriminate H.
Qed.

Lemma split_arrays_fifth (perm : nat -> list nat) (cols : list string)
    (rows : list (Z * list value)) (codes : list value) :
  length codes = length rows ->
  (2 <= length rows)%nat ->
  split_arrays perm [VFrame cols rows; VArray codes]
    [("test_size", VFloat 2 (-1)); ("random_state", VInt 42)] =
  Returned (VList
    [take_rows (drop (Z.to_nat (ceil_div (Z.of_nat (length rows)) 5)) (perm (length rows)))
       (VFrame cols rows);
     take_rows (take (Z.to_nat (ceil_div (Z.of_nat (length rows)) 5)) (perm (length rows)))
       (VFrame cols rows);
     take_rows (drop (Z.to_nat (ceil_div (Z.of_nat (length rows)) 5)) (perm (length rows)))
       (VArray codes);
     take_rows (take (Z.to_nat (ceil_div (Z.of_nat (length rows)) 5)) (perm (length rows)))
       (VArray codes)]).
Proof.
  intros Hlen Hrows. unfold split_arrays.
  cbn [n_samples forallb]. rewrite Hlen, Nat.eqb_refl. cbn [andb].
  change (dict_get "test_size" _) with (Some (VFloat 2 (-1))).
  unfold test_count.
  change ((0 <? 2) && (-1 <? 0) && (2 <? 10 ^ (- (-1)))) with true. cbn iota.
  rewrite ceil_fifth by lia.
  pose proof (ceil_fifth_below (length rows) Hrows) as Hk.
  destruct (Nat.eqb_spec (length rows - Z.to_nat (ceil_div (Z.of_nat (length rows)) 5)) 0);
    [lia |].
  reflexivity.
Qed.

Lemma parts_permutation {A : Type} (l : list A) (p : list nat) (k : nat) :
  Permutation p (seq 0 (length l)) ->
  Permutation (omap (fun i => l !! i) (drop k p) ++ omap (fun i => l !! i) (take k p))%list l.
Proof.
  intros H. rewrite <- omap_app. apply omap_lookup_permutation.
  rewrite Permutation_app_comm, take_drop. exact H.
Qed.

(** ** The distributed dataframe handle of the data-exploration notebook *)

(** With every call answered, the notebook persists the dataframe and calls
    [len] and [info] on it. *)
Lemma handle_not_only_computed : ~ only_compute dask_trace.
Proof. unfold only_compute. vm_compute. discriminate. Qed.

(** C1 (amended).  The notebook persists the dataframe with [.persist()] and
    applies to the handle, in this order: display, [len] twice, [.info()],
    selection of a column, [.compute()] and [.memory_usage()]; nothing else
    is applied to it, and each lazy result derived from it is brought into
    local memory by [.compute()]. *)
Theorem handle_operations_exact :
  map label (handle_operations dask_trace) =
    [".repartition"; ".persist"; "display"; "len"; "len"; ".info";
     ".__getitem__"; ".compute"; ".memory_usage"] /\
  (exists ddf col s_tip m s s_mem o1 o2,
     [ (Method ddf "__getitem__" [VStr "tipAmount"] [], Returned col);
       (Method col "compute" [] [], Returned s_tip);
       (Method ddf "compute" [] [], o1);
       (Method ddf "memory_usage" [] [("index", VBool true); ("deep", VBool true)],
        Returned m);
       (Method m "sum" [] [], Returned s);
       (Method s "compute" [] [], Returned s_mem) ] `sublist_of` dask_trace /\
     In (Method o2 "persist" [] [], Returned ddf) dask_trace).
Proof.
  split; [vm_compute; reflexivity |].
  do 8 eexists. split.
  - vm_compute. find_sublist.
  - vm_compute. repeat first [left; reflexivity | right].
Qed.


(** ** The experiment-tracking run of the LightGBM notebook *)

Ltac run_discipline_branch :=
  vm_compute; repeat split; first [lia | discriminate | reflexivity].

(** C2 (amended).  Whatever the libraries answer, every call to the tracking
    library between [mlflow.start_run] and [mlflow.end_run] is the call
    [mlflow.lightgbm.autolog] or a metric-logging call; the run is started at
    most once and never ended more often than started; and in an execution
    that completes it is started once, ended once, and the tracking calls
    inside it are autolog, log_metric and log_metrics, in this order. *)
Theorem tracking_run_discipline (W : Type) (h : oracle W) (w : W) :
  let x := run h Lightgbm.notebook w in
  only_tracking autolog_or_metric (trace_of x) = true /\
  (count_calls "mlflow.end_run" (trace_of x)
     <= count_calls "mlflow.start_run" (trace_of x) <= 1)%nat /\
  (returned (outcome_of x) = true ->
     count_calls "mlflow.start_run" (trace_of x) = 1%nat /\
     count_calls "mlflow.end_run" (trace_of x) = 1%nat /\
     map label (List.filter is_tracking (within_run (trace_of x))) =
       ["mlflow.lightgbm.autolog"; "mlflow.log_metric"; "mlflow.log_metrics"]).
Proof.
  cbv zeta.
  apply (wp_run h Lightgbm.notebook
           (fun r tr _ =>
              only_tracking autolog_or_metric tr = true /\
              (count_calls "mlflow.end_run" tr
                 <= count_calls "mlflow.start_run" tr <= 1)%nat /\
              (returned r = true ->
                 count_calls "mlflow.start_run" tr = 1%nat /\
                 count_calls "mlflow.end_run" tr = 1%nat /\
                 map label (List.filter is_tracking (within_run tr)) =
                   ["mlflow.lightgbm.autolog"; "mlflow.log_metric"; "mlflow.log_metrics"]))).
  unfold Lightgbm.notebook.
  cbn -[wp only_tracking count_calls within_run].
  do 23 step run_discipline_branch.
  unpack4_cases v21 run_discipline_branch.
  all: repeat step run_discipline_branch.
  all: apply wp_ret; vm_compute; repeat split; lia.
Qed.

Lemma tracking_run_discipline_witness :
  count_calls "mlflow.start_run" (trace_of (run nominal Lightgbm.notebook 0%nat)) = 1%nat /\
  count_calls "mlflow.end_run" (trace_of (run nominal Lightgbm.notebook 0%nat)) = 1%nat /\
  map label (List.filter is_tracking
               (within_run (trace_of (run nominal Lightgbm.notebook 0%nat)))) =
    ["mlflow.lightgbm.autolog"; "mlflow.log_metric"; "mlflow.log_metrics"].
Proof.
  apply (tracking_run_discipline nat nominal 0%nat). reflexivity.
Defined.

(** With every call answered, the run of the notebook is not metrics-only:
    [mlflow.lightgbm.autolog] is called inside it. *)
Lemma run_not_metrics_only :
  ~ metrics_only_run (trace_of (run nominal Lightgbm.notebook 0%nat)).
Proof. intros [H _]. vm_compute in H. discriminate H. Qed.

(** ** The order of the deployment notebook *)

Ltac deployment_branch :=
  split; [vm_compute; reflexivity | intros Hret; discriminate Hret].

(** C3.  In every execution of the deployment notebook the steps that were
    reached are register, package into an inference configuration, deploy,
    invoke, delete, in this order; an execution that completes performs all
    five, each on the result of the one before. *)
Theorem deployment_order (W : Type) (h : oracle W) (w : W) :
  let x := run h Deploy.notebook w in
  is_prefix (steps_of (trace_of x)) deployment_steps = true /\
  (returned (outcome_of x) = true ->
     steps_of (trace_of x) = deployment_steps /\ deployment_flow (trace_of x)).
Proof.
  cbv zeta.
  apply (wp_run h Deploy.notebook
           (fun r tr _ =>
              is_prefix (steps_of tr) deployment_steps = true /\
              (returned r = true ->
                 steps_of tr = deployment_steps /\ deployment_flow tr))).
  unfold Deploy.notebook.
  cbn -[wp steps_of is_prefix deployment_flow].
  repeat step deployment_branch.
  apply wp_ret. split; [vm_compute; reflexivity |]. intros _.
  split; [vm_compute; reflexivity |].
  cbn [rev app]. unfold deployment_flow.
  do 10 eexists. find_sublist.
Qed.

Lemma deployment_order_witness :
  returned (outcome_of (run nominal Deploy.notebook 0%nat)) = true /\
  steps_of (trace_of (run nominal Deploy.notebook 0%nat)) = deployment_steps /\
  deployment_flow (trace_of (run nominal Deploy.notebook 0%nat)).
Proof.
  split; [reflexivity |].
  apply (deployment_order nat nominal 0%nat). reflexivity.
Defined.


(** ** What the training notebook fits and logs *)

(** C4.  A completed run of the training notebook trains with objective
    "multiclass" and 3 classes on the training split of the loaded dataset,
    and logs training_time, loss and accuracy, where loss and accuracy are
    log_loss and accuracy_score of the trained model's predictions on the
    test split. *)
Theorem training_fits_and_logs (W : Type) (h : oracle W) (w : W) :
  returned (outcome_of (run h Lightgbm.notebook w)) = true ->
  dict_get "objective" (dict_of Lightgbm.params) = Some (VStr "multiclass") /\
  dict_get "num_class" (dict_of Lightgbm.params) = Some (VInt 3) /\
  training_flow (trace_of (run h Lightgbm.notebook w)).
Proof.
  apply (wp_run h Lightgbm.notebook
           (fun r tr _ =>
              returned r = true ->
              dict_get "objective" (dict_of Lightgbm.params) = Some (VStr "multiclass") /\
              dict_get "num_class" (dict_of Lightgbm.params) = Some (VInt 3) /\
              training_flow tr)).
  unfold Lightgbm.notebook.
  cbn -[wp training_flow dict_get Lightgbm.params Lightgbm.num_boost_round Lightgbm.data_uri].
  do 23 step ltac:(intros Hret; discriminate Hret).
  unpack4_cases v21 ltac:(intros Hret; discriminate Hret).
  all: repeat step ltac:(intros Hret; discriminate Hret).
  all: apply wp_ret; intros _.
  all: split; [reflexivity |]; split; [reflexivity |].
  all: cbn [rev app]; unfold training_flow.
  all: do 22 eexists; split; [| solve [find_sublist]]; reflexivity.
Qed.

Lemma training_fits_and_logs_witness :
  returned (outcome_of (run nominal Lightgbm.notebook 0%nat)) = true /\
  training_flow (trace_of (run nominal Lightgbm.notebook 0%nat)).
Proof.
  split; [reflexivity |].
  apply (training_fits_and_logs nat nominal 0%nat). reflexivity.
Defined.

(** ** Exceptions *)

(** What [plain] says of each shape of code. *)
Lemma plain_inv {R : Type} (p : Prog R) :
  plain p ->
  match p with
  | Ret _ => True
  | Raise e => builtin_error e = true
  | Do _ k => forall v, plain (k v)
  | Try _ _ _ => False
  end.
Proof. intros H. destruct H; auto. Qed.


(** With a handler or an error of the code's own this fails.  A handler
    loses the exception of the call, or puts another in its place; code that
    raises an error of its own ends with an exception that no call raised
    and that is not one of Python's. *)
Lemma handlers_break_propagation :
  (In (Call "Model.deploy" [] [], Raised deployment_failure)
      (trace_of (run failing_deploy swallowing 0%nat)) /\
   outcome_of (run failing_deploy swallowing 0%nat) = Returned tt) /\
  (In (Call "Model.deploy" [] [], Raised deployment_failure)
      (trace_of (run failing_deploy wrapping 0%nat)) /\
   outcome_of (run failing_deploy wrapping 0%nat) <> Raised deployment_failure) /\
  ~ raises_faithfully failing_deploy wrapping /\
  ~ raises_faithfully answers_none translating /\
  ~ plain swallowing /\ ~ plain wrapping /\ ~ plain translating.
Proof.
  repeat split.
  - left. reflexivity.
  - left. reflexivity.
  - cbn. discriminate.
  - intros H. destruct (H 0%nat _ eq_refl) as [[c Hc] | Hb]; [| discriminate Hb].
    cbn in Hc. discriminate Hc.
  - intros H. destruct (H 0%nat _ eq_refl) as [[c Hc] | Hb]; [| discriminate Hb].
    cbn in Hc. discriminate Hc.
  - intros H. exact (plain_inv _ H).
  - intros H. exact (plain_inv _ H).
  - intros H. pose proof (plain_inv _ (plain_inv _ H VNone)) as Hb. discriminate Hb.
Qed.











(** ** The CI workflows *)

(** C6.  The smoke workflow is triggered by pushes (to main) and its job runs
    the two format checks; the CLI-docs workflow is triggered on a cron
    schedule and its job, after logging in to the cloud account with the
    stored credentials, runs the walkthrough script in the [cli] directory. *)
Theorem workflows_lint_and_walkthrough :
  In (Push ["main"]) (on smoke) /\
  map run_line lint_steps =
    [Some "black --check ."; Some "black-nb --clear-output --check ."] /\
  incl lint_steps (all_steps smoke) /\
  existsb is_schedule (on cli_docs) = true /\
  In (Schedule "0 0/4 * * *") (on cli_docs) /\
  find_step "test doc script" cli_docs = Some walkthrough_step /\
  working_directory walkthrough_step = Some "cli" /\
  option_map parse_commands (run_line walkthrough_step) =
    Some [(Semi, ["set"; "-e"]); (Semi, ["bash"; "-x"; "how-to-configure-cli.sh"])] /\
  In (uses_step "azure login" "azure/login@v1" [("creds", "${{secrets.AZ_AE_CREDS}}")])
     (steps_before "test doc script" (all_steps cli_docs)).
Proof.
  split; [left; reflexivity |].
  split; [reflexivity |].
  split; [intros s Hs; vm_compute in Hs; vm_compute; tauto |].
  split; [reflexivity |].
  split; [left; reflexivity |].
  split; [reflexivity |].
  split; [reflexivity |].
  split; [reflexivity |].
  vm_compute. tauto.
Qed.


(** ** Executions in which every call succeeds *)

Section Safe.

Context {W : Type} (h : oracle W).

Lemma safe_ret {R : Type} (r : R) : safe h (Ret r).
Proof. intros w _. reflexivity. Qed.

Lemma safe_do {R : Type} (c : call) (k : value -> Prog R) :
  (forall v, documented_shape c v = true -> safe h (k v)) -> safe h (Do c k).
Proof.
  intros Hk w. simpl. destruct (h c w) as [[v | e] w']; [| discriminate].
  specialize (Hk v). unfold safe in Hk. specialize (fun H => Hk H w').
  destruct (run h (k v) w') as [[r tr] w'']. cbn in *.
  intros H. apply andb_prop in H as [Hv Htr]. auto.
Qed.

Lemma safe_bind {A B : Type} (p : Prog A) (f : A -> Prog B) :
  safe h p -> (forall a, safe h (f a)) -> safe h (bind p f).
Proof.
  intros Hp Hf w. rewrite run_bind. specialize (Hp w).
  destruct (run h p w) as [[[a | e] tr] w']; cbn in *.
  - specialize (Hf a w').
    destruct (run h (f a) w') as [[r tr'] w'']. cbn in *.
    unfold succeeded. rewrite forallb_app. intros H.
    apply andb_prop in H as [_ H]. auto.
  - exact Hp.
Qed.

Lemma safe_for_each {A B : Type} (f : A -> Prog B) (l : list A) :
  (forall a, safe h (f a)) -> safe h (for_each f l).
Proof.
  intros Hf. induction l as [| a l IH]; cbn [for_each].
  - apply safe_ret.
  - apply safe_bind; [apply Hf |]. intros b.
    apply safe_bind; [exact IH |]. intros bs. apply safe_ret.
Qed.

Lemma safe_format_value (v : value) : safe h (format_value v).
Proof.
  assert (Hcall : safe h (r <- call_ "format" [v] [] ;;
                          match r with
                          | VStr s => Ret s
                          | _ => Raise (PyExn "TypeError" "__format__ must return a str")
                          end)).
  { cbn. apply safe_do. intros r Hr. cbn in Hr.
    destruct r; try discriminate Hr. apply safe_ret. }
  destruct v; try exact Hcall. apply safe_ret.
Qed.

Lemma safe_unpack4 (args : list value) (kw : kwargs) (v : value) :
  documented_shape (Call "train_test_split" args kw) v = true -> safe h (unpack4 v).
Proof.
  intros H. cbn in H.
  destruct (unpack4 v) as [r | e | c k | body handler k]; try discriminate H.
  apply safe_ret.
Qed.

Lemma safe_iterate (recv : value) (args : list value) (kw : kwargs) (v : value) :
  documented_shape (Method recv "glob" args kw) v = true -> safe h (iterate v).
Proof.
  intros H. cbn in H. destruct v; try discriminate H; apply safe_ret.
Qed.

End Safe.

Ltac safe_tac :=
  repeat (cbv beta;
          lazymatch goal with
          | |- safe _ (Ret _) => apply safe_ret
          | |- safe _ (Do _ _) => apply safe_do; intros ? ?
          | |- safe _ (unpack4 _) => eapply safe_unpack4; eassumption
          | |- safe _ (iterate _) => eapply safe_iterate; eassumption
          | |- safe _ (format_value _) => apply safe_format_value
          | |- safe _ (for_each _ _) => apply safe_for_each; intros ?
          | |- safe _ (bind _ _) => apply safe_bind; [| intros ?]
          | |- safe _ (match ?x with _ => _ end) => destruct x
          end).

Lemma lightgbm_safe {W : Type} (h : oracle W) : safe h Lightgbm.notebook.
Proof.
  unfold Lightgbm.notebook. cbn. safe_tac.
Qed.

Lemma deploy_safe {W : Type} (h : oracle W) : safe h Deploy.notebook.
Proof.
  unfold Deploy.notebook. cbn. safe_tac.
Qed.

Lemma dask_safe {W : Type} (h : oracle W) : safe h Dask.notebook.
Proof.
  unfold Dask.notebook. cbn. safe_tac.
  all: unfold Dask.cell_ls; cbn; safe_tac.
Qed.

(** X17.  In each notebook, if every call that is issued returns (with the
    shape its documentation gives), the notebook runs to its end without
    raising. *)
Theorem notebooks_complete (nb : Prog unit) (W : Type) (h : oracle W) (w : W) :
  In nb notebooks ->
  succeeded (trace_of (run h nb w)) = true ->
  returned (outcome_of (run h nb w)) = true.
Proof.
  intros [<- | [<- | [<- | []]]].
  - apply lightgbm_safe.
  - apply deploy_safe.
  - apply dask_safe.
Qed.

Lemma notebooks_complete_witness :
  returned (outcome_of (run nominal Dask.notebook 0%nat)) = true.
Proof.
  apply (notebooks_complete Dask.notebook nat nominal 0%nat).
  - right; right; left; reflexivity.
  - vm_compute. reflexivity.
Defined.

(** ** The walkthrough step *)


(** Every [run:] line of the two workflows is in the fragment of the shell. *)
Lemma run_lines_simple :
  forallb (fun s => match run_line s with
                    | Some line => simple_script line
                    | None => true
                    end)
          (all_steps smoke ++ all_steps cli_docs)%list = true.
Proof. vm_compute. reflexivity. Qed.

(** What the step returns is what the shell started by [bash -x] returns:
    the script is run without errexit, whatever the calling shell has set. *)
Lemma walkthrough_step_status (external : list string -> files -> Z * files)
    (fs : files) (text : string) :
  fs !! walkthrough_path = Some text ->
  simple_script text = true ->
  run_step external walkthrough_step fs =
    exec external false 0 (parse_commands text) fs.
Proof.
  intros Hfile Hsimple. unfold run_step, walkthrough_step.
  cbn [run_line run_step_in working_directory].
  change (parse_commands "set -e; bash -x how-to-configure-cli.sh")
    with [(Semi, ["set"; "-e"]); (Semi, ["bash"; "-x"; "how-to-configure-cli.sh"])].
  cbn -[exec parse_commands].
  change (exec (top_command external (Some "cli")) true 0
            [(Semi, ["set"; "-e"]); (Semi, ["bash"; "-x"; "how-to-configure-cli.sh"])] fs)
    with (let '(st, fs') := bash_script external (Some "cli")
                              ["-x"; "how-to-configure-cli.sh"] fs in
          if negb (st =? 0) && true then (st, fs') else (st, fs')).
  unfold bash_script. cbn [rev app path_in].
  change ("cli" ++ "/" ++ "how-to-configure-cli.sh") with walkthrough_path.
  rewrite Hfile, Hsimple. change (known_options ["-x"]) with true. cbn [andb].
  change (has_errexit_flag ["-x"]) with false.
  destruct (exec external false 0 (parse_commands text) fs) as [st fs'].
  destruct (negb (st =? 0) && true); reflexivity.
Qed.

(** The same for the step that sets up the workspace. *)
Lemma setup_step_status (external : list string -> files -> Z * files)
    (fs : files) (text : string) :
  fs !! setup_path = Some text ->
  simple_script text = true ->
  run_step external (run_step_in "setup workspace" "bash setup.sh" (Some "cli")) fs =
    exec external false 0 (parse_commands text) fs.
Proof.
  intros Hfile Hsimple. unfold run_step. cbn [run_line run_step_in working_directory].
  change (parse_commands "bash setup.sh") with [(Semi, ["bash"; "setup.sh"])].
  cbn -[exec parse_commands].
  change (exec (top_command external (Some "cli")) true 0 [(Semi, ["bash"; "setup.sh"])] fs)
    with (let '(st, fs') := bash_script external (Some "cli") ["setup.sh"] fs in
          if negb (st =? 0) && true then (st, fs') else (st, fs')).
  unfold bash_script. cbn [rev app path_in].
  change ("cli" ++ "/" ++ "setup.sh") with setup_path.
  rewrite Hfile, Hsimple. change (known_options []) with true. cbn [andb].
  change (has_errexit_flag []) with false.
  destruct (exec external false 0 (parse_commands text) fs) as [st fs'].
  destruct (negb (st =? 0) && true); reflexivity.
Qed.

(** A step that starts [bash] on a script that is not in the checkout exits
    127 and leaves the files as they were. *)
Lemma script_steps_missing (external : list string -> files -> Z * files) (fs : files) :
  (fs !! setup_path = None ->
   run_step external (run_step_in "setup workspace" "bash setup.sh" (Some "cli")) fs
   = (127, fs)) /\
  (fs !! walkthrough_path = None -> run_step external walkthrough_step fs = (127, fs)).
Proof.
  split; intros Hfile; unfold run_step, walkthrough_step;
    cbn [run_line run_step_in working_directory].
  - change (parse_commands "bash setup.sh") with [(Semi, ["bash"; "setup.sh"])].
    change (exec (top_command external (Some "cli")) true 0 [(Semi, ["bash"; "setup.sh"])] fs)
      with (let '(st, fs') := bash_script external (Some "cli") ["setup.sh"] fs in
            if negb (st =? 0) && true then (st, fs') else (st, fs')).
    unfold bash_script. cbn [rev app path_in].
    change ("cli" ++ "/" ++ "setup.sh") with setup_path.
    rewrite Hfile. reflexivity.
  - change (parse_commands "set -e; bash -x how-to-configure-cli.sh")
      with [(Semi, ["set"; "-e"]); (Semi, ["bash"; "-x"; "how-to-configure-cli.sh"])].
    change (exec (top_command external (Some "cli")) true 0
              [(Semi, ["set"; "-e"]); (Semi, ["bash"; "-x"; "how-to-configure-cli.sh"])] fs)
      with (let '(st, fs') := bash_script external (Some "cli")
                                ["-x"; "how-to-configure-cli.sh"] fs in
            if negb (st =? 0) && true then (st, fs') else (st, fs')).
    unfold bash_script. cbn [rev app path_in].
    change ("cli" ++ "/" ++ "how-to-configure-cli.sh") with walkthrough_path.
    rewrite Hfile. reflexivity.
Qed.



(** The [set -e] of the walkthrough step does not reach the script.  On a
    script of the fragment whose first command exits 1 and whose last exits
    0, the step exits 0: errexit is set in the shell of the step, and the
    shell that [bash -x] starts for the script does not inherit it. *)
Lemma errexit_not_inherited :
  simple_script failing_script = true /\
  In ["az"; "login"] (script_commands failing_script) /\
  fst (login_fails ["az"; "login"] failing_checkout) = 1 /\
  run_step login_fails walkthrough_step failing_checkout = (0, failing_checkout).
Proof.
  split; [reflexivity |].
  split; [left; reflexivity |].
  split; [reflexivity |].
  rewrite (walkthrough_step_status login_fails failing_checkout failing_script
             eq_refl eq_refl).
  reflexivity.
Qed.



(** ** [preprocess_data] on dataframes *)

Section PreprocessData.

Variable permutation : Z -> nat -> list nat.
Variable advance : Z -> Z.

(** C8.  [preprocess_data] does not depend on the state of the libraries: on
    the same dataframe, from any two states of numpy's global generator and
    of the object store, it raises the same exception or returns the same
    four splits and an encoder fitted with the same classes. *)
Theorem preprocess_data_deterministic (df : value) (w1 w2 : pyworld) :
  same_answer (run (pydata permutation advance) (Lightgbm.preprocess_data df) w1)
              (run (pydata permutation advance) (Lightgbm.preprocess_data df) w2).
Proof.
  unfold same_answer, Lightgbm.preprocess_data.
  cbn -[frame_drop frame_getitem label_encode split_arrays].
  destruct (frame_drop ["species"] df) as [X | e];
    cbn -[frame_drop frame_getitem label_encode split_arrays]; [| reflexivity].
  destruct (frame_getitem "species" df) as [y0 | e];
    cbn -[frame_drop frame_getitem label_encode split_arrays]; [| reflexivity].
  destruct (label_encode y0) as [[classes codes] | e];
    cbn -[frame_drop frame_getitem label_encode split_arrays]; [| reflexivity].
  destruct (split_arrays _ _ _) as [s | e];
    cbn -[frame_drop frame_getitem label_encode split_arrays]; [| reflexivity].
  destruct (unpack4_pure s) as [(a & b & c & d & E) | (e & E)]; rewrite E; cbn.
  - repeat split. exists classes. split; apply lookup_insert_eq.
  - reflexivity.
Qed.

End PreprocessData.

(** Without [random_state] the split does depend on the state of numpy's
    global generator: the seed is what makes the result reproducible. *)
Lemma unseeded_split_depends_on_state :
  fst (train_test_split by_state Z.succ [VArray [VInt 0; VInt 1; VInt 2; VInt 3; VInt 4]]
         [("test_size", VFloat 2 (-1))] (PyWorld 0 ∅ 0))
  <> fst (train_test_split by_state Z.succ [VArray [VInt 0; VInt 1; VInt 2; VInt 3; VInt 4]]
            [("test_size", VFloat 2 (-1))] (PyWorld 1 ∅ 0)).
Proof. vm_compute. discriminate. Qed.

Section PreprocessDataSplit.

Variable permutation : Z -> nat -> list nat.
Variable advance : Z -> Z.
Hypothesis permutation_ok : forall s n, Permutation (permutation s n) (seq 0 n).

Opaque String.eqb.

(** C9 (amended).  For a dataframe with at least two rows and exactly one
    "species" column, whose values are all strings or all numbers apart from
    missing ones, [preprocess_data] returns: feature frames with the
    columns of the input but "species"; labels that are the encoded "species"
    column; training and test parts that take the same row positions from
    features and labels and together hold every row once; a test part of
    0.2 of the rows, rounded up; and the encoder fitted with the classes. *)
Theorem preprocess_data_split (cols : list string) (rows : list (Z * list value)) (w : pyworld) :
  accepted_species cols rows = true ->
  (2 <= length rows)%nat ->
  exists r,
    outcome_of (run (pydata permutation advance)
                    (Lightgbm.preprocess_data (VFrame cols rows)) w) = Returned r /\
    split_of fifth_rounded_up (VFrame cols rows) r
      (world_of (run (pydata permutation advance)
                     (Lightgbm.preprocess_data (VFrame cols rows)) w)).
Proof.
  intros Henc Hrows.
  unfold accepted_species in Henc.
  apply andb_prop in Henc as [Hcount Hvals]. apply Nat.eqb_eq in Hcount.
  set (df := VFrame cols rows).
  (* the four library answers *)
  assert (Hdrop : frame_drop ["species"] df =
            Returned (VFrame (List.filter (fun c => negb (String.eqb c "species")) cols)
                       (map (fun r => (fst r,
                          select (map (fun c => negb (has_label ["species"] c)) cols) (snd r)))
                          rows))).
  { cbn. unfold has_label at 1.
    rewrite (count_true_existsb (String.eqb "species") cols) by lia. cbn.
    f_equal. f_equal. apply select_map_filter. intros x. cbn.
    rewrite orb_false_r. reflexivity. }
  assert (Hget : frame_getitem "species" df =
            Returned (VSeries (map (fun r => (fst r,
              hd VNone (select (map (String.eqb "species") cols) (snd r)))) rows))).
  { cbn. rewrite Hcount. reflexivity. }
  set (X := VFrame (List.filter (fun c => negb (String.eqb c "species")) cols) _) in Hdrop.
  set (y0 := VSeries _) in Hget.
  assert (Hcol : column_or_1d y0 = Returned (species_values cols rows)).
  { unfold y0, species_values. cbn. rewrite map_map. reflexivity. }
  destruct (label_encode_accepts_labels y0 _ Hcol Hvals) as (classes & codes & Hfit).
  pose proof (label_encode_length y0 _ classes codes Hcol Hfit) as Hlen.
  unfold species_values in Hlen. rewrite length_map in Hlen.
  set (n := length rows) in *.
  set (k := Z.to_nat (ceil_div (Z.of_nat n) 5)).
  assert (Hk : (k < n)%nat) by (apply ceil_fifth_below; exact Hrows).
  pose proof (permutation_ok 42 n) as Hperm.
  assert (Hsplit : split_arrays (permutation 42) [X; VArray codes]
            [("test_size", VFloat 2 (-1)); ("random_state", VInt 42)] =
          Returned (VList [take_rows (drop k (permutation 42 n)) X;
                           take_rows (take k (permutation 42 n)) X;
                           take_rows (drop k (permutation 42 n)) (VArray codes);
                           take_rows (take k (permutation 42 n)) (VArray codes)])).
  { unfold X. rewrite split_arrays_fifth; rewrite ?length_map; auto. }
  unfold Lightgbm.preprocess_data.
  Transparent String.eqb.
  cbn -[frame_drop frame_getitem label_encode split_arrays take_rows df].
  Opaque String.eqb.
  rewrite Hdrop. cbn -[frame_drop frame_getitem label_encode split_arrays take_rows df].
  rewrite Hget. cbn -[frame_drop frame_getitem label_encode split_arrays take_rows df].
  rewrite Hfit. cbn -[frame_drop frame_getitem label_encode split_arrays take_rows df].
  rewrite Hsplit. cbn -[frame_drop frame_getitem label_encode split_arrays take_rows df].
  eexists. split; [reflexivity |].
  unfold split_of.
  exists X, classes, codes, (drop k (permutation 42 n)), (take k (permutation 42 n)).
  assert (HX : length (frame_rows X) = n) by (unfold X; cbn; apply length_map).
  repeat split; try reflexivity.
  - exact Hdrop.
  - exists y0. split; [exact Hget | exact Hfit].
  - cbn. apply lookup_insert_eq.
  - cbn. fold n. rewrite Permutation_app_comm, take_drop. exact Hperm.
  - cbn. apply parts_permutation. rewrite length_map. exact Hperm.
  - cbn. apply parts_permutation. rewrite Hlen. exact Hperm.
  - cbn. apply omap_lookup_length. rewrite length_map. fold n.
    apply Forall_take. apply permutation_below. exact Hperm.
  - unfold fifth_rounded_up. cbn. fold n.
    rewrite length_take_le.
    + unfold k. rewrite Z2Nat.id; [reflexivity |]. unfold ceil_div. apply Z.div_pos; lia.
    + rewrite (Permutation_length Hperm), length_seq. lia.
Qed.

Transparent String.eqb.

End PreprocessDataSplit.

Lemma descending_ok (s : Z) (n : nat) : Permutation (descending s n) (seq 0 n).
Proof. symmetry. apply Permutation_rev. Qed.

(** Labels that are strings, labels that are floats (two of them equal), and
    labels one of which is missing. *)
Lemma preprocess_data_split_witness :
  Forall (fun df =>
            exists r,
              outcome_of (run (pydata descending Z.succ) (Lightgbm.preprocess_data df) pyworld0)
                = Returned r /\
              split_of fifth_rounded_up df r
                (world_of (run (pydata descending Z.succ)
                               (Lightgbm.preprocess_data df) pyworld0)))
         [iris5; graded5; sparse5].
Proof.
  repeat constructor;
    apply (preprocess_data_split descending Z.succ descending_ok);
    first [reflexivity | simpl; lia].
Defined.

(** With one row [train_test_split] raises, and with seven rows the test part
    has two rows, which is not a fifth of seven.  With five rows a fifth is
    exact, but the call still raises when the labels mix strings and numbers
    (TypeError of the encoder) and when two columns are named "species"
    (ValueError of the encoder, which is given a table). *)
Lemma fifth_split_fails :
  ~ returns_fifth_split descending Z.succ iris1 /\
  ~ returns_fifth_split descending Z.succ iris7 /\
  ~ returns_fifth_split descending Z.succ mixed5 /\
  ~ returns_fifth_split descending Z.succ twice5.
Proof.
  repeat split; intros H; destruct (H pyworld0) as (r & Hr & Hs).
  - vm_compute in Hr. discriminate Hr.
  - vm_compute in Hr. injection Hr as <-.
    destruct Hs as (X & classes & codes & ind_train & ind_test & Hs).
    destruct Hs as (_ & _ & _ & _ & _ & _ & _ & _ & _ & _ & _ & _ & _ & Hlen & Hfifth).
    cbn in Hlen. unfold fifth_exactly in Hfifth. cbn in Hfifth. lia.
  - vm_compute in Hr. discriminate Hr.
  - vm_compute in Hr. discriminate Hr.
Qed.
(** ** The lint steps and the files *)

Lemma formatter_check (selects : string -> bool) (f : string -> option string)
    (args : list string) (fs : files) :
  existsb (String.eqb "--check") args = true ->
  snd (formatter selects f args fs) = fs /\
  fst (formatter selects f args fs) =
    (if unparsable selects f fs then 123
     else if would_change selects f fs then 1 else 0) /\
  (fst (formatter selects f args fs) = 0 <-> conforms selects f fs = true).
Proof.
  intros H. unfold formatter, conforms. rewrite H. cbn [fst snd andb].
  split; [reflexivity |]. split; [reflexivity |].
  destruct (unparsable selects f fs); destruct (would_change selects f fs); cbn;
    split; intros E; first [reflexivity | discriminate E].
Qed.

(** Without [--check] the formatter does rewrite files. *)
Lemma formatter_rewrites_without_check :
  snd (black tidy (ends_with ".py") ["."] untidy_checkout) <> untidy_checkout.
Proof.
  intros H.
  assert (E : snd (black tidy (ends_with ".py") ["."] untidy_checkout) !! "setup.py"
              = Some "x=1")
    by (rewrite H; reflexivity).
  vm_compute in E. discriminate E.
Qed.

(** The commands of the two lint steps. *)
Lemma code_format_step_runs (format_py : string -> option string)
    (format_nb : bool -> string -> option string) (selects_py selects_nb : string -> bool)
    (other : list string -> files -> Z * files) (fs : files) :
  run_step (lint_tools format_py format_nb selects_py selects_nb other)
    (run_step_in "check code format" "black --check ." None) fs =
  formatter selects_py format_py ["--check"; "."] fs.
Proof.
  unfold run_step. cbn [run_line run_step_in working_directory].
  change (parse_commands "black --check .") with [(Semi, ["black"; "--check"; "."])].
  cbn -[black]. unfold black.
  destruct (formatter selects_py format_py ["--check"; "."] fs) as [st fs'].
  destruct (negb (st =? 0) && true); reflexivity.
Qed.

Lemma notebook_format_step_runs (format_py : string -> option string)
    (format_nb : bool -> string -> option string) (selects_py selects_nb : string -> bool)
    (other : list string -> files -> Z * files) (fs : files) :
  run_step (lint_tools format_py format_nb selects_py selects_nb other)
    (run_step_in "check notebook format" "black-nb --clear-output --check ." None) fs =
  formatter selects_nb (format_nb true) ["--clear-output"; "--check"; "."] fs.
Proof.
  unfold run_step. cbn [run_line run_step_in working_directory].
  change (parse_commands "black-nb --clear-output --check .")
    with [(Semi, ["black-nb"; "--clear-output"; "--check"; "."])].
  cbn -[black_nb]. unfold black_nb.
  change (existsb (String.eqb "--clear-output") ["--clear-output"; "--check"; "."])
    with true.
  destruct (formatter selects_nb (format_nb true) ["--clear-output"; "--check"; "."] fs)
    as [st fs'].
  destruct (negb (st =? 0) && true); reflexivity.
Qed.

(** C10.  Each of the two lint steps of the smoke workflow passes [--check]
    to its formatter; whatever the files, whichever of them the formatter
    looks at and whatever it would make of them, the step leaves every file
    as it was, and it reports through its exit status: zero exactly when
    every file it looks at is parsed and already formatted. *)
Theorem lint_steps_leave_files (format_py : string -> option string)
    (format_nb : bool -> string -> option string) (selects_py selects_nb : string -> bool)
    (other : list string -> files -> Z * files) (fs : files) (s : step) :
  In s lint_steps ->
  (exists line, run_line s = Some line /\
                Forall (fun c => In "--check" (snd c)) (parse_commands line)) /\
  snd (run_step (lint_tools format_py format_nb selects_py selects_nb other) s fs) = fs /\
  (fst (run_step (lint_tools format_py format_nb selects_py selects_nb other) s fs) = 0 <->
   if String.eqb (step_name s) "check code format"
   then conforms selects_py format_py fs = true
   else conforms selects_nb (format_nb true) fs = true).
Proof.
  intros Hs. vm_compute in Hs. destruct Hs as [<- | [<- | []]].
  - split.
    + eexists. split; [reflexivity |]. vm_compute.
      repeat (apply Forall_cons || apply Forall_nil); cbn; auto 10.
    + change (Step "check code format" None [] (Some "black --check .") None)
        with (run_step_in "check code format" "black --check ." None).
      rewrite code_format_step_runs.
      destruct (formatter_check selects_py format_py ["--check"; "."] fs eq_refl)
        as (Hfiles & _ & Hstatus).
      split; [exact Hfiles | exact Hstatus].
  - split.
    + eexists. split; [reflexivity |]. vm_compute.
      repeat (apply Forall_cons || apply Forall_nil); cbn; auto 10.
    + change (Step "check notebook format" None []
                (Some "black-nb --clear-output --check .") None)
        with (run_step_in "check notebook format" "black-nb --clear-output --check ." None).
      rewrite notebook_format_step_runs.
      destruct (formatter_check selects_nb (format_nb true)
                  ["--clear-output"; "--check"; "."] fs eq_refl)
        as (Hfiles & _ & Hstatus).
      split; [exact Hfiles | exact Hstatus].
Qed.

Lemma lint_steps_leave_files_witness :
  snd (run_step (lint_tools tidy (fun _ => tidy) (ends_with ".py") (ends_with ".ipynb")
                   all_succeed)
         (run_step_in "check code format" "black --check ." None) untidy_checkout)
    = untidy_checkout.
Proof.
  apply (lint_steps_leave_files tidy (fun _ => tidy) (ends_with ".py") (ends_with ".ipynb")
           all_succeed untidy_checkout).
  left. reflexivity.
Defined.

(** ** Further properties of the LightGBM notebook *)

Ltac flow_branch :=
  let H := fresh "Hissued" in
  intros H;
  first [ discriminate H
        | vm_compute in H; discriminate H
        | clear H; cbn [rev app]; repeat eexists; solve [find_sublist] ].

(** X1.  Whatever the libraries answer, [mlflow.start_run] is called only
    after the tracking URI was set to the one the workspace returned and the
    experiment was chosen. *)
Theorem run_started_after_tracking_setup (W : Type) (h : oracle W) (w : W) :
  issued (is_call "mlflow.start_run") (trace_of (run h Lightgbm.notebook w)) = true ->
  tracking_configured (trace_of (run h Lightgbm.notebook w)).
Proof.
  apply (wp_run h Lightgbm.notebook
           (fun _ tr _ => issued (is_call "mlflow.start_run") tr = true ->
                          tracking_configured tr)).
  unfold Lightgbm.notebook, tracking_configured.
  cbn -[wp issued].
  do 23 step flow_branch.
  unpack4_cases v21 flow_branch.
  all: repeat step flow_branch.
  all: apply wp_ret; flow_branch.
Qed.

Lemma run_started_after_tracking_setup_witness :
  tracking_configured (trace_of (run nominal Lightgbm.notebook 0%nat)).
Proof.
  apply (run_started_after_tracking_setup nat nominal 0%nat). reflexivity.
Defined.

(** X2.  If a call made while the run is active raises, the notebook ends
    there: the run was started once and [mlflow.end_run] is never called. *)
Theorem failed_run_left_open (W : Type) (h : oracle W) (w : W) :
  raised_in (run_entries (trace_of (run h Lightgbm.notebook w))) = true ->
  count_calls "mlflow.start_run" (trace_of (run h Lightgbm.notebook w)) = 1%nat /\
  count_calls "mlflow.end_run" (trace_of (run h Lightgbm.notebook w)) = 0%nat /\
  returned (outcome_of (run h Lightgbm.notebook w)) = false.
Proof.
  apply (wp_run h Lightgbm.notebook
           (fun r tr _ => raised_in (run_entries tr) = true ->
                          count_calls "mlflow.start_run" tr = 1%nat /\
                          count_calls "mlflow.end_run" tr = 0%nat /\
                          returned r = false)).
  unfold Lightgbm.notebook.
  cbn -[wp raised_in run_entries count_calls].
  do 23 step ltac:(vm_compute; intros; first [discriminate | repeat split]).
  unpack4_cases v21 ltac:(vm_compute; intros; first [discriminate | repeat split]).
  all: repeat step ltac:(vm_compute; intros; first [discriminate | repeat split]).
  all: apply wp_ret; vm_compute; intros; discriminate.
Qed.

Lemma failed_run_left_open_witness :
  count_calls "mlflow.start_run" (trace_of (run failing_train Lightgbm.notebook 0%nat)) = 1%nat /\
  count_calls "mlflow.end_run" (trace_of (run failing_train Lightgbm.notebook 0%nat)) = 0%nat /\
  returned (outcome_of (run failing_train Lightgbm.notebook 0%nat)) = false.
Proof.
  apply (failed_run_left_open nat failing_train 0%nat). reflexivity.
Defined.

(** ** Further properties of the deployment notebook *)

Ltac deploy_flow Q :=
  match goal with
  | |- context [run ?h Deploy.notebook ?w] => apply (wp_run h Deploy.notebook Q)
  end;
  unfold Deploy.notebook;
  cbn -[wp issued];
  repeat step flow_branch;
  apply wp_ret; flow_branch.

(** X3.  Whatever the libraries answer, [Model.deploy] is called only after
    the requirements file was written and the environment was configured
    (docker on the prebuilt inference image, user-managed dependencies),
    registered and pointed to that requirements file; the inference
    configuration it deploys is built from this environment. *)
Theorem deploy_after_environment_prepared (W : Type) (h : oracle W) (w : W) :
  issued (is_call "Model.deploy") (trace_of (run h Deploy.notebook w)) = true ->
  environment_prepared (trace_of (run h Deploy.notebook w)).
Proof.
  unfold environment_prepared.
  deploy_flow (fun (_ : result unit) tr (_ : W) =>
                 issued (is_call "Model.deploy") tr = true -> environment_prepared tr).
Qed.

Lemma deploy_after_environment_prepared_witness :
  environment_prepared (trace_of (run nominal Deploy.notebook 0%nat)).
Proof.
  apply (deploy_after_environment_prepared nat nominal 0%nat). reflexivity.
Defined.

(** X4.  Whatever the libraries answer, [service.delete()] is called only
    after the deployment, the wait for it, the reading of the logs and of the
    scoring URI, and the invocation of that same service have all returned:
    a failure in any of them leaves the service deployed. *)
Theorem delete_only_after_invocation (W : Type) (h : oracle W) (w : W) :
  issued (is_method "delete") (trace_of (run h Deploy.notebook w)) = true ->
  service_lifecycle (trace_of (run h Deploy.notebook w)).
Proof.
  unfold service_lifecycle.
  deploy_flow (fun (_ : result unit) tr (_ : W) =>
                 issued (is_method "delete") tr = true -> service_lifecycle tr).
Qed.

Lemma delete_only_after_invocation_witness :
  service_lifecycle (trace_of (run nominal Deploy.notebook 0%nat)).
Proof.
  apply (delete_only_after_invocation nat nominal 0%nat). reflexivity.
Defined.

(** X5.  Whatever the libraries answer, what [service.run] receives is the
    JSON document whose "data" is the test image after Resize(256),
    CenterCrop(224), ToTensor and Normalize, converted to float, wrapped in a
    tensor, given a batch dimension and converted to a nested list. *)
Theorem invocation_sends_preprocessed_image (W : Type) (h : oracle W) (w : W) :
  issued (is_method "run") (trace_of (run h Deploy.notebook w)) = true ->
  scoring_request (trace_of (run h Deploy.notebook w)).
Proof.
  unfold scoring_request.
  deploy_flow (fun (_ : result unit) tr (_ : W) =>
                 issued (is_method "run") tr = true -> scoring_request tr).
Qed.

Lemma invocation_sends_preprocessed_image_witness :
  scoring_request (trace_of (run failing_invoke Deploy.notebook 0%nat)).
Proof.
  apply (invocation_sends_preprocessed_image nat failing_invoke 0%nat). reflexivity.
Defined.

(** ** Further properties of the data-exploration notebook *)

Section Always.

Context {W : Type} (h : oracle W) (P : call -> bool).

Lemma always_ret {R : Type} (r : R) : always h P (Ret r).
Proof. intros w. reflexivity. Qed.

Lemma always_raise {R : Type} (e : exn) : always h P (@Raise R e).
Proof. intros w. reflexivity. Qed.

Lemma always_do {R : Type} (c : call) (k : value -> Prog R) :
  P c = true -> (forall v, always h P (k v)) -> always h P (Do c k).
Proof.
  intros Hc Hk w. simpl. destruct (h c w) as [[v | e] w'].
  - specialize (Hk v w'). destruct (run h (k v) w') as [[r tr] w'']. cbn in *.
    rewrite Hc. exact Hk.
  - cbn. rewrite Hc. reflexivity.
Qed.

Lemma always_bind {A B : Type} (p : Prog A) (f : A -> Prog B) :
  always h P p -> (forall a, always h P (f a)) -> always h P (bind p f).
Proof.
  intros Hp Hf w. rewrite run_bind. specialize (Hp w).
  destruct (run h p w) as [[[a | e] tr] w']; cbn in *.
  - specialize (Hf a w'). destruct (run h (f a) w') as [[r tr'] w'']. cbn in *.
    unfold calls in *. rewrite map_app, forallb_app, Hp, Hf. reflexivity.
  - exact Hp.
Qed.

Lemma always_for_each {A B : Type} (f : A -> Prog B) (l : list A) :
  (forall a, always h P (f a)) -> always h P (for_each f l).
Proof.
  intros Hf. induction l as [| a l IH]; cbn [for_each].
  - apply always_ret.
  - apply always_bind; [apply Hf |]. intros b.
    apply always_bind; [exact IH |]. intros bs. apply always_ret.
Qed.

Lemma always_format_value (v : value) :
  (forall x, P (Call "format" [x] []) = true) -> always h P (format_value v).
Proof.
  intros HP.
  assert (Hcall : always h P
                    (r <- call_ "format" [v] [] ;;
                     match r with
                     | VStr s => Ret s
                     | _ => Raise (PyExn "TypeError" "__format__ must return a str")
                     end)).
  { cbn. apply always_do; [apply HP |]. intros r.
    destruct r; first [apply always_ret | apply always_raise]. }
  destruct v; try exact Hcall. apply always_ret.
Qed.

Lemma always_unpack4 (v : value) : always h P (unpack4 v).
Proof.
  destruct (unpack4_pure v) as [(a & b & c & d & E) | (e & E)]; rewrite E;
    [apply always_ret | apply always_raise].
Qed.

Lemma always_iterate (v : value) : always h P (iterate v).
Proof. destruct v; cbn; first [apply always_ret | apply always_raise]. Qed.

End Always.

Ltac always_tac :=
  repeat (cbv beta;
          lazymatch goal with
          | |- always _ _ (Ret _) => apply always_ret
          | |- always _ _ (Do _ _) => apply always_do; [reflexivity | intros ?]
          | |- always _ _ (unpack4 _) => apply always_unpack4
          | |- always _ _ (iterate _) => apply always_iterate
          | |- always _ _ (format_value _) => apply always_format_value; reflexivity
          | |- always _ _ (for_each _ _) => apply always_for_each; intros ?
          | |- always _ _ (bind _ _) => apply always_bind; [| intros ?]
          | |- always _ _ (match ?x with _ => _ end) => destruct x
          end).

Section Confined.

Context {W : Type} (h : oracle W) (k : nat).
Hypothesis Hkey : key_only_from_datastore h k.

Lemma clean_answer (c : call) (w w' : W) (v : value) :
  h c w = (Returned v, w') -> reads_account_key c = false -> holds k v = false.
Proof.
  intros Hc Hr. destruct (holds k v) eqn:E; [| reflexivity].
  rewrite (Hkey c w v w' Hc E) in Hr. discriminate Hr.
Qed.

Lemma confined_ret {R : Type} (Post : R -> Prop) (r : R) :
  Post r -> confined h k Post (Ret r).
Proof. intros H w. split; [reflexivity |]. cbn. intros r' [= <-]. exact H. Qed.

Lemma confined_raise {R : Type} (Post : R -> Prop) (e : exn) :
  confined h k Post (@Raise R e).
Proof. intros w. split; [reflexivity |]. cbn. discriminate. Qed.

Lemma confined_do {R : Type} (Post : R -> Prop) (c : call) (f : value -> Prog R) :
  key_confined k c = true ->
  (forall v w w', h c w = (Returned v, w') -> confined h k Post (f v)) ->
  confined h k Post (Do c f).
Proof.
  intros Hc Hf w. simpl. destruct (h c w) as [[v | e] w'] eqn:E.
  - destruct (Hf v w w' E w') as [Hcalls Hpost].
    destruct (run h (f v) w') as [[r tr] w'']. cbn in *.
    rewrite Hc. split; [exact Hcalls | exact Hpost].
  - cbn. rewrite Hc. split; [reflexivity | discriminate].
Qed.

Lemma confined_bind {A B : Type} (Mid : A -> Prop) (Post : B -> Prop)
    (p : Prog A) (f : A -> Prog B) :
  confined h k Mid p -> (forall a, Mid a -> confined h k Post (f a)) ->
  confined h k Post (bind p f).
Proof.
  intros Hp Hf w. rewrite run_bind. destruct (Hp w) as [Hcalls Hmid].
  destruct (run h p w) as [[[a | e] tr] w']; cbn in *.
  - destruct (Hf a (Hmid a eq_refl) w') as [Hcalls' Hpost].
    destruct (run h (f a) w') as [[r tr'] w'']. cbn in *.
    unfold calls in *. rewrite map_app, forallb_app, Hcalls, Hcalls'.
    split; [reflexivity | exact Hpost].
  - split; [exact Hcalls | discriminate].
Qed.

Lemma confined_for_each {A B : Type} (Pre : A -> Prop) (Post : B -> Prop)
    (f : A -> Prog B) (l : list A) :
  Forall Pre l -> (forall a, Pre a -> confined h k Post (f a)) ->
  confined h k (Forall Post) (for_each f l).
Proof.
  intros Hl Hf. induction Hl as [| a l Ha _ IH]; cbn [for_each].
  - apply confined_ret. constructor.
  - apply (confined_bind Post); [apply Hf; exact Ha |]. intros b Hb.
    apply (confined_bind (Forall Post)); [exact IH |]. intros bs Hbs.
    apply confined_ret. constructor; assumption.
Qed.

Lemma confined_format_value (v : value) :
  holds k v = false -> confined h k (fun _ => True) (format_value v).
Proof.
  intros Hv.
  assert (Hcall : confined h k (fun _ : string => True)
                    (r <- call_ "format" [v] [] ;;
                     match r with
                     | VStr s => Ret s
                     | _ => Raise (PyExn "TypeError" "__format__ must return a str")
                     end)).
  { cbn. apply confined_do.
    - unfold key_confined, mentions. cbn. rewrite Hv. reflexivity.
    - intros r w w' _. destruct r; first [apply confined_ret; exact I | apply confined_raise]. }
  destruct v; try exact Hcall. apply confined_ret. exact I.
Qed.

Lemma confined_iterate (v : value) :
  holds k v = false ->
  confined h k (Forall (fun x => holds k x = false)) (iterate v).
Proof.
  intros Hv. destruct v; cbn; try apply confined_raise; apply confined_ret;
    cbn in Hv; apply List.Forall_forall; intros x Hx;
    destruct (holds k x) eqn:E; try reflexivity;
    (assert (existsb (holds k) items = true) as E'
      by (apply existsb_exists; exists x; split; assumption));
    congruence.
Qed.

End Confined.

Lemma holds_list_clean (k : nat) (l : list value) :
  Forall (fun x => holds k x = false) l -> existsb (holds k) l = false.
Proof.
  induction 1 as [| x l Hx _ IH]; cbn; [reflexivity |]. rewrite Hx, IH. reflexivity.
Qed.

Lemma last_n_clean (k n : nat) (l : list value) :
  Forall (fun x => holds k x = false) l ->
  Forall (fun x => holds k x = false) (last_n n l).
Proof. intros H. unfold last_n. apply Forall_drop. exact H. Qed.

Ltac clean_tac :=
  unfold key_confined, mentions; cbn;
  repeat match goal with
         | H : holds _ _ = false |- _ => rewrite H
         end;
  cbn; first [reflexivity | apply implb_true_r].

Ltac confined_tac Hkey :=
  repeat (cbv beta;
          lazymatch goal with
          | |- confined _ _ _ (Ret _) => apply confined_ret; exact I
          | |- confined _ _ _ (Do _ _) =>
              apply confined_do;
              [ clean_tac
              | let H := fresh "Hv" in
                intros ?v ?w ?w' H;
                try (apply (clean_answer _ _ Hkey) in H; [| reflexivity]) ]
          | |- confined _ _ _ (bind (format_value _) _) =>
              apply (confined_bind _ _ (fun _ => True));
              [ apply confined_format_value; first [assumption | reflexivity]
              | intros ? _ ]
          | |- confined _ _ _ (bind (bind (format_value _) _) _) =>
              apply (confined_bind _ _ (fun _ => True)); [| intros ? _ ]
          end).

Lemma keyed_hands_key_once : key_only_from_datastore keyed 0.
Proof.
  intros c n v n'. unfold keyed.
  destruct (reads_account_key c); [intros _ _; reflexivity |].
  destruct (is_method "glob" c); [intros [= <- <-]; cbn; discriminate |].
  destruct (is_call "format" c); [intros [= <- <-]; cbn; discriminate |].
  intros [= <- <-]. cbn. discriminate.
Qed.

(** X6.  The account key of the datastore goes to the constructor of the
    filesystem and nowhere else.  Whatever the libraries answer, no other
    call has a keyword [account_key], directly or in its storage options,
    and each reader of data ([pd.read_csv], [dd.read_parquet]) is given one
    location and, besides it, nothing or the account name alone.  And if the
    libraries hand out the key object only as the [account_key] of a
    datastore, that object reaches no call, in no receiver, argument or
    keyword and at no depth, except as the [account_key] of the
    constructor. *)
Theorem account_key_only_to_filesystem (W : Type) (h : oracle W) (w : W) :
  forallb (fun c => key_only_to_filesystem c && reader_options c)
          (calls (trace_of (run h Dask.notebook w))) = true /\
  forall k, key_only_from_datastore h k ->
            forallb (key_confined k) (calls (trace_of (run h Dask.notebook w))) = true.
Proof.
  split.
  - revert w.
    change (always h (fun c => key_only_to_filesystem c && reader_options c) Dask.notebook).
    unfold Dask.notebook. cbn. always_tac.
    all: unfold Dask.cell_ls; cbn; always_tac.
  - intros k Hkey.
    assert (H : confined h k (fun _ : unit => True) Dask.notebook); [| apply H].
    unfold Dask.notebook. cbn. confined_tac Hkey.
    unfold Dask.cell_ls; cbn; confined_tac Hkey.
    apply (confined_bind _ _ (fun files => holds k files = false)).
    + apply (confined_bind _ _ (Forall (fun x => holds k x = false)));
        [apply confined_iterate; assumption |].
      intros items Hitems.
      apply (confined_bind _ _ (Forall (fun x => holds k x = false))).
      * apply (confined_for_each _ _ (fun x => holds k x = false)); [exact Hitems |].
        intros file Hfile.
        apply (confined_bind _ _ (fun _ => True));
          [apply confined_format_value; exact Hfile |].
        intros f _. apply confined_ret. reflexivity.
      * intros files Hfiles. apply confined_do.
        -- unfold key_confined, mentions. cbn.
           rewrite (holds_list_clean _ _ (last_n_clean k 5 files Hfiles)). reflexivity.
        -- intros _ _ _ _. apply confined_ret. cbn. apply holds_list_clean. exact Hfiles.
    + intros files Hfiles. confined_tac Hkey.
Qed.

(** In the world [keyed] the key does reach the constructor, and only it. *)
Lemma account_key_only_to_filesystem_witness :
  forallb (key_confined 0) (calls (trace_of (run keyed Dask.notebook 0%nat))) = true /\
  map (filesystem_with_key 0)
      (List.filter (mentions 0) (calls (trace_of (run keyed Dask.notebook 0%nat)))) = [true].
Proof.
  split.
  - apply (account_key_only_to_filesystem nat keyed 0%nat). exact keyed_hands_key_once.
  - reflexivity.
Defined.

Lemma for_each_az_uri (paths : list string) :
  for_each (fun file => f <- format_value file ;; Ret (VStr ("az://" ++ f)))
           (map VStr paths)
  = Ret (map az_uri paths).
Proof.
  induction paths as [| p paths IH]; cbn [map for_each]; [reflexivity |].
  rewrite IH. reflexivity.
Qed.

Lemma last_n_length {A : Type} (n : nat) (l : list A) :
  length (last_n n l) = Nat.min n (length l).
Proof. unfold last_n. rewrite length_skipn. lia. Qed.

(** X7.  When [fs.glob] answers a list of paths, the cell turns every path
    into an [az://] URI, keeping their order and number (none for an empty
    list), displays the last five of them (all of them if there are fewer),
    and hands the whole list on; it makes no other call. *)
Theorem glob_cell_prefixes_paths (W : Type) (h : oracle W) (w w1 w2 : W)
    (fs d : value) (paths : list string) :
  h (Method fs "glob" [VStr glob_pattern] []) w = (Returned (VList (map VStr paths)), w1) ->
  h (Display (VList (last_n 5 (map az_uri paths)))) w1 = (Returned d, w2) ->
  run h (Dask.cell_glob fs Dask.container_name' Dask.color) w =
    (Returned (VList (map az_uri paths)),
     [ (Method fs "glob" [VStr glob_pattern] [], Returned (VList (map VStr paths)));
       (Display (VList (last_n 5 (map az_uri paths))), Returned d) ],
     w2) /\
  length (last_n 5 (map az_uri paths)) = Nat.min 5 (length paths).
Proof.
  intros Hglob Hdisplay. split.
  - unfold Dask.cell_glob. cbn -[last_n for_each].
    change ("nyctlc" ++ "/" ++ "green" ++ "/puYear=2016/puMonth=12/*.parquet")
      with glob_pattern.
    rewrite Hglob. cbn -[last_n for_each].
    rewrite run_bind, for_each_az_uri. cbn -[last_n].
    rewrite Hdisplay. reflexivity.
  - rewrite last_n_length, length_map. reflexivity.
Qed.

Lemma glob_cell_prefixes_paths_witness :
  exists tr w',
    run nominal (Dask.cell_glob (VObj 7) Dask.container_name' Dask.color) 0%nat =
      (Returned (VList (map az_uri
         ["nyctlc/green/puYear=2016/puMonth=12/part-00000.snappy.parquet";
          "nyctlc/green/puYear=2016/puMonth=12/part-00001.snappy.parquet"])), tr, w').
Proof.
  eexists. eexists.
  apply (glob_cell_prefixes_paths nat nominal 0%nat 0%nat 1%nat (VObj 7) (VObj 0)
           ["nyctlc/green/puYear=2016/puMonth=12/part-00000.snappy.parquet";
            "nyctlc/green/puYear=2016/puMonth=12/part-00001.snappy.parquet"]);
    reflexivity.
Defined.

(** ** Further properties of the workflows *)

(** X8.  The CLI-docs workflow starts on its cron schedule and on pull
    requests against main or cli-preview that change the walkthrough script
    or the workflow file; nothing else starts it, in particular no push. *)
Theorem cli_docs_triggers (e : event) :
  triggered cli_docs e = true <->
  e = CronTick "0 0/4 * * *" \/
  exists base changed,
    e = PullRequestTo base changed /\
    (base = "main" \/ base = "cli-preview") /\
    (In "cli/how-to-configure-cli.sh" changed \/
     In ".github/workflows/cli-docs-how-to-configure-cli.yml" changed).
Proof.
  unfold triggered. cbn [on cli_docs existsb]. split.
  - destruct e as [b | base changed | c]; cbn [trigger_matches orb].
    + discriminate.
    + rewrite orb_false_r. intros H. apply andb_prop in H as [Hb Hp]. right.
      exists base, changed. split; [reflexivity |]. split.
      * cbn in Hb. rewrite orb_false_r in Hb. apply orb_prop in Hb as [Hb | Hb];
          apply String.eqb_eq in Hb; auto.
      * apply existsb_exists in Hp as (f & Hin & Hf). cbn in Hf.
        rewrite orb_false_r in Hf. apply orb_prop in Hf as [Hf | Hf];
          apply String.eqb_eq in Hf; subst f; auto.
    + rewrite orb_false_r. intros H. apply String.eqb_eq in H. left. congruence.
  - intros [-> | (base & changed & -> & Hb & Hp)]; [reflexivity |].
    cbn [trigger_matches orb]. rewrite orb_false_r. apply andb_true_intro. split.
    + destruct Hb as [-> | ->]; reflexivity.
    + apply existsb_exists. destruct Hp as [Hp | Hp]; eexists; (split; [exact Hp |]);
        reflexivity.
Qed.

(** X9.  The smoke workflow starts on a push to main, on any pull request
    against main whatever files it changes, and on its hourly schedule; a
    push to another branch does not start it. *)
Theorem smoke_triggers (e : event) :
  triggered smoke e = true <->
  e = PushTo "main" \/
  (exists changed, e = PullRequestTo "main" changed) \/
  e = CronTick "0 0/1 * * *".
Proof.
  unfold triggered. cbn [on smoke existsb]. split.
  - destruct e as [b | base changed | c]; cbn [trigger_matches orb];
      rewrite ?orb_false_r.
    + cbn. rewrite orb_false_r. intros H. apply String.eqb_eq in H. left. congruence.
    + cbn. rewrite orb_false_r, andb_true_r. intros H. apply String.eqb_eq in H.
      right; left. exists changed. congruence.
    + intros H. apply String.eqb_eq in H. right; right. congruence.
  - intros [-> | [(changed & ->) | ->]]; reflexivity.
Qed.

(** X10.  In the step "docs installs" the packages are installed only if the
    upgrade exited zero; the step returns the status of the upgrade when it
    failed and the status of the installation otherwise. *)
Theorem docs_installs_chain (external : list string -> files -> Z * files) (fs : files) :
  run_step external docs_installs_step fs =
    (let '(st, fs') := external ["sudo"; "apt-get"; "upgrade"; "-y"] fs in
     if st =? 0
     then external ["sudo"; "apt-get"; "install"; "uuid-runtime"; "jq"; "-y"] fs'
     else (st, fs')).
Proof.
  unfold run_step, docs_installs_step.
  change (run_line (step_named "docs installs" cli_docs))
    with (Some "sudo apt-get upgrade -y && sudo apt-get install uuid-runtime jq -y").
  cbv iota.
  change (parse_commands "sudo apt-get upgrade -y && sudo apt-get install uuid-runtime jq -y")
    with [(Semi, ["sudo"; "apt-get"; "upgrade"; "-y"]);
          (AndAnd, ["sudo"; "apt-get"; "install"; "uuid-runtime"; "jq"; "-y"])].
  change (working_directory (step_named "docs installs" cli_docs)) with (@None string).
  cbn -[Z.eqb].
  destruct (external ["sudo"; "apt-get"; "upgrade"; "-y"] fs) as [st fs'].
  rewrite andb_false_r. destruct (st =? 0); [| reflexivity].
  destruct (external _ fs') as [st2 fs2].
  destruct (negb (st2 =? 0) && true); reflexivity.
Qed.

(** X11.  A step that starts [bash] on a script of the [cli] directory
    returns what the script returns when run without errexit, that is the
    status of the last command it ran, and 127 without touching a file when
    the script is missing: so for "setup workspace", and so for the
    walkthrough step, whose [set -e] changes nothing.  This is said of
    scripts of the fragment. *)
Theorem script_steps_status (external : list string -> files -> Z * files) (fs : files) :
  script_covered fs setup_path = true ->
  script_covered fs walkthrough_path = true ->
  run_step external setup_workspace_step fs =
    match fs !! setup_path with
    | Some text => exec external false 0 (parse_commands text) fs
    | None => (127, fs)
    end /\
  run_step external walkthrough_step fs =
    match fs !! walkthrough_path with
    | Some text => exec external false 0 (parse_commands text) fs
    | None => (127, fs)
    end.
Proof.
  unfold script_covered. intros Hsetup Hwalk. split.
  - change setup_workspace_step
      with (run_step_in "setup workspace" "bash setup.sh" (Some "cli")).
    destruct (fs !! setup_path) as [text |] eqn:E.
    + apply setup_step_status; [exact E | exact Hsetup].
    + apply script_steps_missing. exact E.
  - destruct (fs !! walkthrough_path) as [text |] eqn:E.
    + apply walkthrough_step_status; [exact E | exact Hwalk].
    + apply script_steps_missing. exact E.
Qed.

Lemma script_steps_status_witness :
  run_step all_succeed setup_workspace_step sample_checkout =
    exec all_succeed false 0 (parse_commands sample_setup) sample_checkout /\
  run_step all_succeed walkthrough_step sample_checkout =
    exec all_succeed false 0 (parse_commands sample_script) sample_checkout.
Proof.
  apply (script_steps_status all_succeed sample_checkout); reflexivity.
Defined.

(** X12.  The exit status of the two lint steps: 123 when some file the
    formatter looks at cannot be parsed; otherwise 1 when some file would be
    rewritten; otherwise 0.  The code-format step depends only on what black
    looks at, the notebook-format step only on what black-nb looks at, with
    the outputs cleared. *)
Theorem lint_steps_exit_status (format_py : string -> option string)
    (format_nb : bool -> string -> option string) (selects_py selects_nb : string -> bool)
    (other : list string -> files -> Z * files) (fs : files) :
  fst (run_step (lint_tools format_py format_nb selects_py selects_nb other)
         code_format_step fs) =
    (if unparsable selects_py format_py fs then 123
     else if would_change selects_py format_py fs then 1 else 0) /\
  fst (run_step (lint_tools format_py format_nb selects_py selects_nb other)
         notebook_format_step fs) =
    (if unparsable selects_nb (format_nb true) fs then 123
     else if would_change selects_nb (format_nb true) fs then 1 else 0).
Proof.
  split.
  - change code_format_step with (run_step_in "check code format" "black --check ." None).
    rewrite code_format_step_runs.
    apply (formatter_check selects_py format_py ["--check"; "."] fs eq_refl).
  - change notebook_format_step
      with (run_step_in "check notebook format" "black-nb --clear-output --check ." None).
    rewrite notebook_format_step_runs.
    apply (formatter_check selects_nb (format_nb true)
             ["--clear-output"; "--check"; "."] fs eq_refl).
Qed.

(** ** Further properties of [preprocess_data] *)

Lemma strings_of_map (l : list value) (ss : list string) :
  strings_of l = Some ss -> l = map VStr ss.
Proof.
  revert ss. induction l as [| v l IH]; intros ss; cbn.
  - intros [= <-]. reflexivity.
  - destruct v; try discriminate.
    destruct (strings_of l) as [ss' |]; [| discriminate].
    intros [= <-]. cbn. f_equal. auto.
Qed.

Lemma ints_of_map (l : list value) (ns : list Z) :
  ints_of l = Some ns -> l = map VInt ns.
Proof.
  revert ns. induction l as [| v l IH]; intros ns; cbn.
  - intros [= <-]. reflexivity.
  - destruct v; try discriminate.
    destruct (ints_of l) as [ns' |]; [| discriminate].
    intros [= <-]. cbn. f_equal. auto.
Qed.

Section Classes.

Context {A : Type} (cmp : A -> A -> comparison).
Hypothesis cmp_eq : forall a b, cmp a b = Eq <-> a = b.

Lemma insert_unique_in (a b : A) (l : list A) :
  In b (insert_unique cmp a l) <-> b = a \/ In b l.
Proof.
  induction l as [| x l IH]; cbn.
  - intuition auto.
  - destruct (cmp a x) eqn:E; cbn.
    + apply cmp_eq in E. subst x. intuition auto.
    + intuition auto.
    + rewrite IH. intuition auto.
Qed.

Lemma unique_sorted_in (a : A) (l : list A) :
  In a (unique_sorted cmp l) <-> In a l.
Proof.
  unfold unique_sorted. induction l as [| x l IH]; cbn; [reflexivity |].
  rewrite insert_unique_in, IH. intuition auto.
Qed.

(** The position [index_of] gives for a member of the list holds it. *)
Lemma index_of_lookup (a : A) (l : list A) :
  In a l -> 0 <= index_of cmp a l /\ l !! Z.to_nat (index_of cmp a l) = Some a.
Proof.
  assert (Hrefl : cmp a a = Eq) by (apply cmp_eq; reflexivity).
  assert (Hshift : forall i, 0 <= i -> Z.to_nat (1 + i) = S (Z.to_nat i)) by (intros; lia).
  induction l as [| x l IH]; cbn; [intros [] |].
  intros Hin. destruct (cmp a x) eqn:E.
  - apply cmp_eq in E. subst x. split; [lia | reflexivity].
  - destruct Hin as [-> | Hin]; [congruence |].
    destruct (IH Hin) as [H0 Hl]. split; [lia |]. rewrite Hshift by exact H0. exact Hl.
  - destruct Hin as [-> | Hin]; [congruence |].
    destruct (IH Hin) as [H0 Hl]. split; [lia |]. rewrite Hshift by exact H0. exact Hl.
Qed.

(** Every value decodes from its code through the classes. *)
Lemma codes_decode (inj : A -> value) (l : list A) :
  Forall2 (fun code v => decode (map inj (unique_sorted cmp l)) code = Some v)
    (map (fun a => VInt (index_of cmp a (unique_sorted cmp l))) l)
    (map inj l).
Proof.
  set (classes := unique_sorted cmp l).
  assert (Hin : forall a, In a l -> In a classes) by (intros a; apply unique_sorted_in).
  clearbody classes.
  induction l as [| a l IH]; cbn; constructor.
  - destruct (index_of_lookup a classes) as [H0 Hl]; [apply Hin; left; reflexivity |].
    unfold decode. destruct (Z.ltb_spec (index_of cmp a classes) 0); [lia |].
    rewrite list_lookup_fmap, Hl. reflexivity.
  - apply IH. intros b Hb. apply Hin. right. exact Hb.
Qed.

End Classes.

Lemma string_compare_eq (a b : string) : String.compare a b = Eq <-> a = b.
Proof.
  split; [apply String.compare_eq_iff |]. intros <-.
  pose proof (String.compare_antisym a a) as H.
  destruct (String.compare a a); first [reflexivity | discriminate H].
Qed.

Lemma label_encode_decodes (y : value) (vals classes codes : list value) :
  column_or_1d y = Returned vals ->
  match strings_of vals with Some _ => true | None => false end
  || match ints_of vals with Some _ => true | None => false end = true ->
  label_encode y = Returned (classes, codes) ->
  Forall2 (fun code v => decode classes code = Some v) codes vals.
Proof.
  unfold label_encode. intros -> Hvals.
  destruct (strings_of vals) as [ss |] eqn:Es.
  - intros [= <- <-]. rewrite (strings_of_map _ _ Es).
    apply (codes_decode String.compare string_compare_eq VStr ss).
  - destruct (ints_of vals) as [ns |] eqn:En; [| discriminate Hvals].
    intros [= <- <-]. rewrite (ints_of_map _ _ En).
    apply (codes_decode Z.compare Z.compare_eq_iff VInt ns).
Qed.


Section PreprocessDataParts.

Variable permutation : Z -> nat -> list nat.
Variable advance : Z -> Z.

(** X13.  On a dataframe without a "species" column [preprocess_data] raises
    the KeyError of [df.drop] at its first call: no encoder is created and
    the state of the libraries is left as it was. *)
Theorem preprocess_data_missing_species (cols : list string)
    (rows : list (Z * list value)) (w : pyworld) :
  has_label cols "species" = false ->
  run (pydata permutation advance) (Lightgbm.preprocess_data (VFrame cols rows)) w =
    (Raised (PyExn "KeyError" "labels not found in axis"),
     [ (Method (VFrame cols rows) "drop" [VList [VStr "species"]] [("axis", VInt 1)],
        Raised (PyExn "KeyError" "labels not found in axis")) ],
     w).
Proof.
  intros Hmissing. unfold Lightgbm.preprocess_data.
  cbn -[has_label]. rewrite Hmissing. reflexivity.
Qed.

(** [train_test_split] as [preprocess_data] calls it, on features and labels
    of the same length: it raises when the training part would be empty. *)
Lemma split_arrays_seeded (perm : nat -> list nat) (cols : list string)
    (rows : list (Z * list value)) (codes : list value) :
  length codes = length rows ->
  split_arrays perm [VFrame cols rows; VArray codes]
    [("test_size", VFloat 2 (-1)); ("random_state", VInt 42)] =
  let k := Z.to_nat (ceil_div (Z.of_nat (length rows)) 5) in
  if Nat.eqb (length rows - k) 0
  then Raised (PyExn "ValueError" "the resulting train set will be empty")
  else Returned (VList
         [take_rows (drop k (perm (length rows))) (VFrame cols rows);
          take_rows (take k (perm (length rows))) (VFrame cols rows);
          take_rows (drop k (perm (length rows))) (VArray codes);
          take_rows (take k (perm (length rows))) (VArray codes)]).
Proof.
  intros Hlen. unfold split_arrays.
  cbn [n_samples forallb]. rewrite Hlen, Nat.eqb_refl. cbn [andb].
  change (dict_get "test_size" _) with (Some (VFloat 2 (-1))).
  unfold test_count.
  change ((0 <? 2) && (-1 <? 0) && (2 <? 10 ^ (- (-1)))) with true. cbn iota.
  rewrite ceil_fifth by lia. cbv zeta.
  destruct (Nat.eqb _ 0); reflexivity.
Qed.

Opaque String.eqb.

(** The outcome of [preprocess_data] on a dataframe whose "species" column
    can be encoded, from the answers of the library calls. *)
Lemma preprocess_data_calls (cols : list string) (rows : list (Z * list value))
    (w : pyworld) :
  encodable_species cols rows = true ->
  exists classes codes Xcols Xrows,
    let X := VFrame Xcols Xrows in
    frame_drop ["species"] (VFrame cols rows) = Returned X /\
    length Xrows = length rows /\
    length codes = length rows /\
    Forall2 (fun code v => decode classes code = Some v) codes (species_values cols rows) /\
    outcome_of (run (pydata permutation advance)
                    (Lightgbm.preprocess_data (VFrame cols rows)) w) =
      (let k := Z.to_nat (ceil_div (Z.of_nat (length rows)) 5) in
       let p := permutation 42 (length rows) in
       if Nat.eqb (length rows - k) 0
       then Raised (PyExn "ValueError" "the resulting train set will be empty")
       else Returned (take_rows (drop k p) X, take_rows (take k p) X,
                      take_rows (drop k p) (VArray codes),
                      take_rows (take k p) (VArray codes),
                      VObj (next_id w))) /\
    world_of (run (pydata permutation advance)
                  (Lightgbm.preprocess_data (VFrame cols rows)) w) =
      PyWorld (np_random w) (<[next_id w := classes]> (fitted w)) (S (next_id w)).
Proof.
  intros Henc. unfold encodable_species in Henc.
  apply andb_prop in Henc as [Hcount Hvals]. apply Nat.eqb_eq in Hcount.
  set (df := VFrame cols rows).
  set (X := VFrame (select (map (fun c => negb (has_label ["species"] c)) cols) cols)
              (map (fun r => (fst r,
                 select (map (fun c => negb (has_label ["species"] c)) cols) (snd r))) rows)).
  assert (Hdrop : frame_drop ["species"] df = Returned X).
  { cbn. unfold has_label at 1.
    rewrite (count_true_existsb (String.eqb "species") cols) by lia. reflexivity. }
  set (y0 := VSeries (map (fun r => (fst r,
                hd VNone (select (map (String.eqb "species") cols) (snd r)))) rows)).
  assert (Hget : frame_getitem "species" df = Returned y0).
  { cbn. rewrite Hcount. reflexivity. }
  assert (Hcol : column_or_1d y0 = Returned (species_values cols rows)).
  { unfold y0, species_values. cbn. rewrite map_map. reflexivity. }
  destruct (label_encode_accepts y0 _ Hcol Hvals) as (classes & codes & Hfit).
  pose proof (label_encode_length y0 _ classes codes Hcol Hfit) as Hlen.
  unfold species_values in Hlen. rewrite length_map in Hlen.
  pose proof (label_encode_decodes y0 _ classes codes Hcol Hvals Hfit) as Hdec.
  assert (HX : length (frame_rows X) = length rows) by (unfold X; cbn; apply length_map).
  cbn in HX.
  assert (Hsplit : split_arrays (permutation 42) [X; VArray codes]
            [("test_size", VFloat 2 (-1)); ("random_state", VInt 42)] =
          if Nat.eqb (length rows - Z.to_nat (ceil_div (Z.of_nat (length rows)) 5)) 0
          then Raised (PyExn "ValueError" "the resulting train set will be empty")
          else Returned (VList
                 [take_rows (drop (Z.to_nat (ceil_div (Z.of_nat (length rows)) 5))
                               (permutation 42 (length rows))) X;
                  take_rows (take (Z.to_nat (ceil_div (Z.of_nat (length rows)) 5))
                               (permutation 42 (length rows))) X;
                  take_rows (drop (Z.to_nat (ceil_div (Z.of_nat (length rows)) 5))
                               (permutation 42 (length rows))) (VArray codes);
                  take_rows (take (Z.to_nat (ceil_div (Z.of_nat (length rows)) 5))
                               (permutation 42 (length rows))) (VArray codes)])).
  { unfold X. rewrite split_arrays_seeded by (rewrite length_map; exact Hlen).
    rewrite length_map. reflexivity. }
  eexists classes, codes, _, _. cbv zeta. fold X.
  split; [exact Hdrop |]. split; [exact HX |]. split; [exact Hlen |].
  split; [exact Hdec |].
  unfold Lightgbm.preprocess_data.
  Transparent String.eqb.
  cbn -[frame_drop frame_getitem label_encode split_arrays take_rows df].
  Opaque String.eqb.
  rewrite Hdrop. cbn -[frame_drop frame_getitem label_encode split_arrays take_rows df].
  rewrite Hget. cbn -[frame_drop frame_getitem label_encode split_arrays take_rows df].
  rewrite Hfit. cbn -[frame_drop frame_getitem label_encode split_arrays take_rows df].
  rewrite Hsplit.
  destruct (Nat.eqb _ 0); cbn -[take_rows]; split; reflexivity.
Qed.

Transparent String.eqb.

(** X14.  On a dataframe with fewer than two rows [preprocess_data] raises
    the ValueError of [train_test_split] (the training part would be empty),
    after the encoder was created and fitted. *)
Theorem preprocess_data_too_few_rows (cols : list string) (rows : list (Z * list value))
    (w : pyworld) :
  encodable_species cols rows = true ->
  (length rows < 2)%nat ->
  outcome_of (run (pydata permutation advance)
                  (Lightgbm.preprocess_data (VFrame cols rows)) w) =
    Raised (PyExn "ValueError" "the resulting train set will be empty") /\
  next_id (world_of (run (pydata permutation advance)
                         (Lightgbm.preprocess_data (VFrame cols rows)) w)) = S (next_id w) /\
  is_Some (classes_of (VObj (next_id w))
             (world_of (run (pydata permutation advance)
                            (Lightgbm.preprocess_data (VFrame cols rows)) w))).
Proof.
  intros Henc Hrows.
  destruct (preprocess_data_calls cols rows w Henc)
    as (classes & codes & Xcols & Xrows & _ & _ & _ & _ & Hout & Hworld).
  rewrite Hout, Hworld. cbv zeta. split; [| split].
  - assert (E : (length rows - Z.to_nat (ceil_div (Z.of_nat (length rows)) 5) = 0)%nat).
    { destruct rows as [| r [| r' rows']]; cbn in Hrows; [reflexivity | reflexivity | lia]. }
    rewrite E. reflexivity.
  - reflexivity.
  - exists classes. cbn. apply lookup_insert_eq.
Qed.


Hypothesis permutation_ok : forall s n, Permutation (permutation s n) (seq 0 n).

(** X15.  On a dataframe with at least two rows whose "species" column can be
    encoded, the features and labels of each part have the same number of
    rows, the test part has a fifth of the rows rounded up and the training
    part the others, neither is empty, and when the number of rows is a
    multiple of five the test part is exactly a fifth and the training part
    exactly four fifths. *)
Theorem preprocess_data_part_sizes (cols : list string) (rows : list (Z * list value))
    (w : pyworld) :
  encodable_species cols rows = true ->
  (2 <= length rows)%nat ->
  exists X_train X_test y_train y_test enc,
    outcome_of (run (pydata permutation advance)
                    (Lightgbm.preprocess_data (VFrame cols rows)) w) =
      Returned (X_train, X_test, y_train, y_test, enc) /\
    length (array_items y_train) = length (frame_rows X_train) /\
    length (array_items y_test) = length (frame_rows X_test) /\
    Z.of_nat (length (frame_rows X_test)) = ceil_div (Z.of_nat (length rows)) 5 /\
    (length (frame_rows X_train) + length (frame_rows X_test) = length rows)%nat /\
    (1 <= length (frame_rows X_test))%nat /\
    (1 <= length (frame_rows X_train))%nat /\
    forall m, length rows = (5 * m)%nat ->
              length (frame_rows X_test) = m /\ length (frame_rows X_train) = (4 * m)%nat.
Proof.
  intros Henc Hrows.
  destruct (preprocess_data_calls cols rows w Henc)
    as (classes & codes & Xcols & Xrows & Hdrop & HX & Hlen & _ & Hout & _).
  pose proof (ceil_fifth_below (length rows) Hrows) as Hk.
  cbv zeta in Hout.
  destruct (Nat.eqb_spec (length rows - Z.to_nat (ceil_div (Z.of_nat (length rows)) 5)) 0)
    as [E | _]; [lia |].
  set (n := length rows) in *.
  set (k := Z.to_nat (ceil_div (Z.of_nat n) 5)) in *.
  pose proof (permutation_ok 42 n) as Hperm.
  assert (Hp : length (permutation 42 n) = n)
    by (rewrite (Permutation_length Hperm); apply length_seq).
  assert (Hbelow : Forall (fun i => (i < n)%nat) (permutation 42 n))
    by (apply permutation_below; exact Hperm).
  assert (Htake : forall {A : Type} (l : list A), length l = n ->
            length (omap (fun i => l !! i) (take k (permutation 42 n))) = k).
  { intros A l Hl. rewrite omap_lookup_length.
    - rewrite length_take_le; lia.
    - rewrite Hl. apply Forall_take. exact Hbelow. }
  assert (Hdrop' : forall {A : Type} (l : list A), length l = n ->
            length (omap (fun i => l !! i) (drop k (permutation 42 n))) = (n - k)%nat).
  { intros A l Hl. rewrite omap_lookup_length.
    - rewrite length_drop; lia.
    - rewrite Hl. apply Forall_drop. exact Hbelow. }
  assert (Hceil : Z.of_nat k = ceil_div (Z.of_nat n) 5).
  { unfold k. rewrite Z2Nat.id; [reflexivity |]. unfold ceil_div. apply Z.div_pos; lia. }
  assert (Hpos : (1 <= k)%nat).
  { assert (1 <= ceil_div (Z.of_nat n) 5); [| lia].
    unfold ceil_div. apply Z.div_le_lower_bound; lia. }
  do 5 eexists. split; [exact Hout |]. cbn.
  rewrite (Htake _ Xrows HX), (Htake _ codes Hlen),
          (Hdrop' _ Xrows HX), (Hdrop' _ codes Hlen).
  repeat split; try lia.
  - assert (Hm : ceil_div (Z.of_nat n) 5 = Z.of_nat m).
    { unfold ceil_div. symmetry. apply Z.div_unique with (r := 4); lia. }
    lia.
  - assert (Hm : ceil_div (Z.of_nat n) 5 = Z.of_nat m).
    { unfold ceil_div. symmetry. apply Z.div_unique with (r := 4); lia. }
    lia.
Qed.

End PreprocessDataParts.

Lemma preprocess_data_missing_species_witness :
  run (pydata descending Z.succ) (Lightgbm.preprocess_data unlabelled) pyworld0 =
    (Raised (PyExn "KeyError" "labels not found in axis"),
     [ (Method unlabelled "drop" [VList [VStr "species"]] [("axis", VInt 1)],
        Raised (PyExn "KeyError" "labels not found in axis")) ],
     pyworld0).
Proof.
  apply (preprocess_data_missing_species descending Z.succ
           ["sepal_length"; "sepal_width"] [(0, [VFloat 51 (-1); VFloat 35 (-1)])] pyworld0).
  reflexivity.
Defined.

Lemma preprocess_data_too_few_rows_witness :
  outcome_of (run (pydata descending Z.succ) (Lightgbm.preprocess_data iris1) pyworld0) =
    Raised (PyExn "ValueError" "the resulting train set will be empty").
Proof.
  apply (preprocess_data_too_few_rows descending Z.succ iris_columns [iris_row 0 "setosa"]
           pyworld0).
  - reflexivity.
  - simpl. lia.
Defined.


Lemma preprocess_data_part_sizes_witness :
  exists X_train X_test y_train y_test enc,
    outcome_of (run (pydata descending Z.succ) (Lightgbm.preprocess_data iris5) pyworld0) =
      Returned (X_train, X_test, y_train, y_test, enc) /\
    length (array_items y_train) = length (frame_rows X_train) /\
    length (array_items y_test) = length (frame_rows X_test) /\
    Z.of_nat (length (frame_rows X_test)) = ceil_div (Z.of_nat (length (frame_rows iris5))) 5 /\
    (length (frame_rows X_train) + length (frame_rows X_test)
     = length (frame_rows iris5))%nat /\
    (1 <= length (frame_rows X_test))%nat /\
    (1 <= length (frame_rows X_train))%nat /\
    forall m, length (frame_rows iris5) = (5 * m)%nat ->
              length (frame_rows X_test) = m /\ length (frame_rows X_train) = (4 * m)%nat.
Proof.
  apply (preprocess_data_part_sizes descending Z.succ descending_ok iris_columns
           (frame_rows iris5) pyworld0).
  - reflexivity.
  - simpl. lia.
Defined.
